(** * meshery-adapter-library: kubeconfig validation and the SMI conformance run

    A shallow embedding of [adapter/configure.go] (the auth-info filter and
    [validateKubeconfig]) and of [adapter/smi.go] ([RunSMITest] and its four
    phase functions), with the properties the specification states of them.

    Go maps are [gmap]s, slices are lists, a Go [error] result is an
    [option error] ([None] is [nil]) and a [(T, error)] result of an external
    call is a sum.  Calls that leave the package (the cluster client, the
    remote fetch, the conformance tool, the clock) go through a small state
    monad which threads the outside world and records every call made. *)

From Stdlib Require Import ZArith.
From Stdlib.Strings Require Import String Ascii Byte.
From Stdlib Require Import DecimalString.
From stdpp Require Import gmap strings list fin_maps.

Open Scope string_scope.

(** ** Errors

    Modelled from the spec: the error constructors of the package live in
    [adapter/error.go], which is not part of the sources at hand; the spec's
    taxonomy gives one label per failure kind, each wrapping its cause.
    [ErrInstallSmi], [ErrConnectSmi], [ErrRunSmi] and [ErrDeleteSmi] are the
    spec's InstallError, ConnectError, RunError and DeleteError,
    [ErrAuthInfosInvalidMsg] is its NoUsableCredentialsError.  [External] is
    an error value produced outside the package. *)
Inductive error : Type :=
| External (msg : string)
| ErrAuthInfosInvalidMsg
| ErrValidateKubeconfig (cause : error)
| ErrSmiInit (desc : string)
| ErrInstallSmi (cause : error)
| ErrConnectSmi (cause : error)
| ErrRunSmi (cause : error)
| ErrDeleteSmi (cause : error).

(** * configure.go *)

(** [clientcmdapi.AuthInfo], with the two fields the filter reads. *)
Record AuthInfo : Type := mkAuthInfo {
  ClientCertificate : string;
  ClientCertificateData : list byte
}.

(** [clientcmdapi.Config]: the auth-info map and the selected context. *)
Record Config : Type := mkConfig {
  AuthInfos : gmap string AuthInfo;
  CurrentContext : string
}.

Definition Config_with_AuthInfos (c : Config) (m : gmap string AuthInfo) : Config :=
  {| AuthInfos := m; CurrentContext := CurrentContext c |}.

(** The [Adapter] struct, with the fields the two files use.  [Clientset] is
    [kubernetes.Interface] and [RestCfg] is [rest.Config], both opaque here.

    Modelled from the spec: [GetName] and [GetVersion] are methods of
    [adapter/adapter.go], which is not part of the sources at hand; they give
    the subject (mesh) name and version of the adapter, kept as two fields. *)
Record Adapter (Clientset RestCfg : Type) : Type := mkAdapter {
  GetName : string;
  GetVersion : string;
  KubeClient : Clientset;
  RestConfig : RestCfg;
  ClientcmdConfig : option Config
}.
Arguments mkAdapter {Clientset RestCfg}.
Arguments GetName {Clientset RestCfg}.
Arguments GetVersion {Clientset RestCfg}.
Arguments KubeClient {Clientset RestCfg}.
Arguments RestConfig {Clientset RestCfg}.
Arguments ClientcmdConfig {Clientset RestCfg}.

Definition Adapter_with_ClientcmdConfig {Clientset RestCfg : Type}
    (h : Adapter Clientset RestCfg) (c : Config) : Adapter Clientset RestCfg :=
  {| GetName := GetName h; GetVersion := GetVersion h;
     KubeClient := KubeClient h; RestConfig := RestConfig h;
     ClientcmdConfig := Some c |}.

Section Configure.

(** [os.Stat] on a path, the file system held fixed: [None] when the path
    is accessible, the error otherwise. *)
Variable os_Stat : string -> option error.

(** The body of the [range] loop: the entry is deleted when it has no
    inline certificate data and its certificate path cannot be stat'ed. *)
Definition filter_body (authInfos : gmap string AuthInfo)
    (entry : string * AuthInfo) : gmap string AuthInfo :=
  let (key, authInfo) := entry in
  if Nat.eqb (length (ClientCertificateData authInfo)) 0 then
    match os_Stat (ClientCertificate authInfo) with
    | Some _ => delete key authInfos
    | None => authInfos
    end
  else authInfos.

(** [filterK8sConfigAuthInfos], the [range] visiting the entries in the
    order [order].  The body deletes no key but the one being visited, so
    the loop reaches every entry the map had at the start.  The map is
    updated in place, so the result carries the map after the loop next to
    the returned error. *)
Definition filterK8sConfigAuthInfos_in (order : list (string * AuthInfo))
    (authInfos : gmap string AuthInfo) : gmap string AuthInfo * option error :=
  let authInfos' := fold_left filter_body order authInfos in
  if Nat.eqb (size authInfos') 0
  then (authInfos', Some ErrAuthInfosInvalidMsg)
  else (authInfos', None).

(** An iteration order of a map: its entries, each once, in any order
    (Go leaves the order of a [range] over a map unspecified). *)
Definition iteration_order (order : list (string * AuthInfo))
    (authInfos : gmap string AuthInfo) : Prop :=
  order ≡ₚ map_to_list authInfos.

Definition filterK8sConfigAuthInfos (authInfos : gmap string AuthInfo)
    : gmap string AuthInfo * option error :=
  filterK8sConfigAuthInfos_in (map_to_list authInfos) authInfos.

(** The entries the filter keeps, as a predicate. *)
Definition usable (authInfo : AuthInfo) : bool :=
  negb (Nat.eqb (length (ClientCertificateData authInfo)) 0)
  || match os_Stat (ClientCertificate authInfo) with
     | None => true
     | Some _ => false
     end.

(** What the spec says the filter leaves: the entries with inline
    certificate data or an accessible certificate path, and no other. *)
Definition kept (authInfos : gmap string AuthInfo) : gmap string AuthInfo :=
  filter (fun entry => usable entry.2 = true) authInfos.

Context {Clientset RestCfg : Type}.

(** The client-go functions [validateKubeconfig] calls.  [clientcmd.Load]
    parses; [FlattenConfig] and [MinifyConfig] rewrite the document in
    place and may fail. *)
Variable clientcmd_Load : list byte -> error + Config.
Variable clientcmdapi_FlattenConfig : Config -> Config * option error.
Variable clientcmdapi_MinifyConfig : Config -> Config * option error.

Definition validateKubeconfig (h : Adapter Clientset RestCfg)
    (kubeconfig : list byte) : Adapter Clientset RestCfg * option error :=
  match clientcmd_Load kubeconfig with
  | inl err => (h, Some (ErrValidateKubeconfig err))
  | inr clientcmdConfig =>
    match filterK8sConfigAuthInfos (AuthInfos clientcmdConfig) with
    | (_, Some err) => (h, Some (ErrValidateKubeconfig err))
    | (authInfos, None) =>
      let clientcmdConfig := Config_with_AuthInfos clientcmdConfig authInfos in
      match clientcmdapi_FlattenConfig clientcmdConfig with
      | (_, Some err) => (h, Some (ErrValidateKubeconfig err))
      | (clientcmdConfig, None) =>
        match clientcmdapi_MinifyConfig clientcmdConfig with
        | (_, Some err) => (h, Some (ErrValidateKubeconfig err))
        | (clientcmdConfig, None) =>
          (Adapter_with_ClientcmdConfig h clientcmdConfig, None)
        end
      end
    end
  end.

End Configure.

(** * smi.go *)

(** ** Types of the packages [smi.go] imports *)

(** Package [conformance] (the remote conformance tool's protocol). *)
Module conformance.

(** Modelled from the spec: the raw assertion record is declared in the
    conformance tool's package, not in this repository.  The fields
    [runConformanceTest] reads are [Smispec], [Time], [Assertions],
    [Result], [Reason], [Capability] and [Status]; [Smiversion] is the
    record's specification version, which the spec lists among the fields
    of an assertion outcome produced by the remote tool. *)
Record Detail : Type := mkDetail {
  Smispec : string;
  Smiversion : string;
  Time : string;
  Assertions : string;
  Result : string;
  Reason : string;
  Capability : string;
  Status : string
}.

Record Request : Type := mkRequest {
  Annotations : gmap string string;
  Labels : gmap string string;
  Meshname : string;
  Meshversion : string
}.

Record Response : Type := mkResponse {
  Casespassed : string;
  Passpercent : string;
  Details : list Detail
}.

End conformance.

(** Package [mesherykube] (meshkit's Kubernetes helper). *)
Module mesherykube.

Record ApplyOptions : Type := mkApplyOptions {
  Namespace : string;
  Delete : bool
}.

Record Endpoint : Type := mkEndpoint {
  Address : string;
  Port : Z
}.

End mesherykube.

(** ** Types of [smi.go] *)

(** [Detail]; its [Status] field is [Detail_Status] here, [Status] being the
    field of [Response]. *)
Record Detail : Type := mkDetail {
  SmiSpecification : string;
  SmiVersion : string;
  Time : string;
  Assertions : string;
  Result : string;
  Reason : string;
  Capability : string;
  Detail_Status : string
}.

Record Response : Type := mkResponse {
  ID : string;
  Date : string;
  MeshName : string;
  MeshVersion : string;
  CasesPassed : string;
  PassingPercentage : string;
  Status : string;
  MoreDetails : list Detail
}.

(** [Response{}], the zero value. *)
Definition Response_zero : Response :=
  {| ID := ""; Date := ""; MeshName := ""; MeshVersion := "";
     CasesPassed := ""; PassingPercentage := ""; Status := "";
     MoreDetails := [] |}.

(** Assignments to single fields of a [Response]. *)
Definition set_Status (status : string) (r : Response) : Response :=
  {| ID := ID r; Date := Date r; MeshName := MeshName r;
     MeshVersion := MeshVersion r; CasesPassed := CasesPassed r;
     PassingPercentage := PassingPercentage r; Status := status;
     MoreDetails := MoreDetails r |}.

Definition set_CasesPassed (v : string) (r : Response) : Response :=
  {| ID := ID r; Date := Date r; MeshName := MeshName r;
     MeshVersion := MeshVersion r; CasesPassed := v;
     PassingPercentage := PassingPercentage r; Status := Status r;
     MoreDetails := MoreDetails r |}.

Definition set_PassingPercentage (v : string) (r : Response) : Response :=
  {| ID := ID r; Date := Date r; MeshName := MeshName r;
     MeshVersion := MeshVersion r; CasesPassed := CasesPassed r;
     PassingPercentage := v; Status := Status r;
     MoreDetails := MoreDetails r |}.

Definition set_MoreDetails (v : list Detail) (r : Response) : Response :=
  {| ID := ID r; Date := Date r; MeshName := MeshName r;
     MeshVersion := MeshVersion r; CasesPassed := CasesPassed r;
     PassingPercentage := PassingPercentage r; Status := Status r;
     MoreDetails := v |}.

(** [SMITestOptions]; [Ctx] is [context.Context]. *)
Record SMITestOptions (Ctx : Type) : Type := mkSMITestOptions {
  Ctx_ : Ctx;
  OperationID : string;
  Namespace : string;
  Manifest : string;
  Labels : gmap string string;
  Annotations : gmap string string
}.
Arguments mkSMITestOptions {Ctx}.
Arguments Ctx_ {Ctx}.
Arguments OperationID {Ctx}.
Arguments Namespace {Ctx}.
Arguments Manifest {Ctx}.
Arguments Labels {Ctx}.
Arguments Annotations {Ctx}.

(** [SMITest]; [KClient] is [*mesherykube.Client]. *)
Record SMITest (Ctx KClient : Type) : Type := mkSMITest {
  id : string;
  adaptorVersion : string;
  adaptorName : string;
  ctx : Ctx;
  kclient : KClient;
  smiAddress : string;
  annotations : gmap string string;
  labels : gmap string string
}.
Arguments mkSMITest {Ctx KClient}.
Arguments id {Ctx KClient}.
Arguments adaptorVersion {Ctx KClient}.
Arguments adaptorName {Ctx KClient}.
Arguments ctx {Ctx KClient}.
Arguments kclient {Ctx KClient}.
Arguments smiAddress {Ctx KClient}.
Arguments annotations {Ctx KClient}.
Arguments labels {Ctx KClient}.

Definition set_smiAddress {Ctx KClient : Type} (addr : string)
    (t : SMITest Ctx KClient) : SMITest Ctx KClient :=
  {| id := id t; adaptorVersion := adaptorVersion t;
     adaptorName := adaptorName t; ctx := ctx t; kclient := kclient t;
     smiAddress := addr; annotations := annotations t; labels := labels t |}.

(** [time.Second], in nanoseconds. *)
Definition time_Second : Z := 1000000000.

(** [fmt.Sprintf("%s:%d", address, port)]. *)
Definition Sprintf_s_d (address : string) (port : Z) : string :=
  address ++ ":" ++ NilZero.string_of_int (Z.to_int port).

(** ** The phases *)

Inductive phase : Type := installing | connecting | running | deleting.

Definition all_phases : list phase := [installing; connecting; running; deleting].

(** The status string [RunSMITest] writes when the phase fails. *)
Definition phase_name (p : phase) : string :=
  match p with
  | installing => "installing"
  | connecting => "connecting"
  | running => "running"
  | deleting => "deleting"
  end.

(** The error label [RunSMITest] wraps the cause in when the phase fails. *)
Definition phase_label (p : phase) : error -> error :=
  match p with
  | installing => ErrInstallSmi
  | connecting => ErrConnectSmi
  | running => ErrRunSmi
  | deleting => ErrDeleteSmi
  end.

Definition phase_index (p : phase) : nat :=
  match p with
  | installing => 0
  | connecting => 1
  | running => 2
  | deleting => 3
  end.

(** The function of [smi.go] a call is made from. *)
Inductive site : Type :=
| in_RunSMITest
| in_phase (p : phase).

(** ** The outside world

    Everything [smi.go] calls outside the package.  Each operation reads and
    updates the state of the outside world (cluster, network, clock);
    [KClient] is [*mesherykube.Client] and [CClient] the conformance tool's
    client session. *)
Class Externals (World Ctx Clientset RestCfg KClient CClient : Type) : Type := {
  (** [err.Error()], the text [%v] prints. *)
  error_text : error -> string;
  mesherykube_New : Clientset -> RestCfg -> World -> (error + KClient) * World;
  (** [time.Now().Format(time.RFC3339)]. *)
  time_Now_RFC3339 : World -> string * World;
  time_Sleep : Z -> World -> World;
  utils_ReadRemoteFile : string -> World -> (error + string) * World;
  kclient_ApplyManifest :
    KClient -> list byte -> mesherykube.ApplyOptions -> World -> option error * World;
  kclient_GetServiceEndpoint :
    KClient -> Ctx -> string -> string -> World -> (error + mesherykube.Endpoint) * World;
  conformance_CreateClient : string -> World -> (error + CClient) * World;
  cclient_RunTest :
    CClient -> conformance.Request -> World -> (error + conformance.Response) * World;
  cclient_Close : CClient -> World -> option error * World
}.

Section SMI.

Context {World Ctx Clientset RestCfg KClient CClient : Type}.
Context {ext : Externals World Ctx Clientset RestCfg KClient CClient}.

(** A call that leaves the package, with its arguments. *)
Inductive call : Type :=
| CallNew (kubeClient : Clientset) (restConfig : RestCfg)
| CallNow
| CallSleep (d : Z)
| CallReadRemoteFile (location : string)
| CallApplyManifest (k : KClient) (contents : list byte)
    (options : mesherykube.ApplyOptions)
| CallGetServiceEndpoint (k : KClient) (c : Ctx) (name ns : string)
| CallCreateClient (address : string)
| CallRunTest (c : CClient) (req : conformance.Request)
| CallClose (c : CClient).

(** What a call gave back. *)
Inductive value : Type :=
| VUnit
| VString (s : string)
| VKClient (k : KClient)
| VEndpoint (e : mesherykube.Endpoint)
| VCClient (c : CClient)
| VResponse (r : conformance.Response).

Record event : Type := mkEvent {
  ev_site : site;
  ev_call : call;
  ev_result : error + value
}.

(** The state monad: the outside world and the calls made so far. *)
Definition M (A : Type) : Type :=
  World * list event -> A * (World * list event).

Definition ret {A : Type} (a : A) : M A := fun s => (a, s).

Definition bind {A B : Type} (m : M A) (k : A -> M B) : M B :=
  fun s => let (a, s') := m s in k a s'.

(** [perform at c log f] makes the external call [f] and records it as
    call [c] made from [at], with its result as [log] shows it. *)
Definition perform {A : Type} (at_ : site) (c : call)
    (log : A -> error + value) (f : World -> A * World) : M A :=
  fun s =>
    let (w, tr) := s in
    let (a, w') := f w in
    (a, (w', (tr ++ [mkEvent at_ c (log a)])%list)).

Definition log_sum {A : Type} (v : A -> value) (r : error + A) : error + value :=
  match r with
  | inl err => inl err
  | inr a => inr (v a)
  end.

Definition log_err (r : option error) : error + value :=
  match r with
  | Some err => inl err
  | None => inr VUnit
  end.

Local Notation "'let*' x := m 'in' k" := (bind m (fun x => k))
  (at level 10, x name, m at level 100, k at level 200).
Local Notation "'let*' ' p := m 'in' k" := (bind m (fun x => let 'p := x in k))
  (at level 10, p pattern, m at level 100, k at level 200).

(** [installConformanceTool] installs the smi conformance tool. *)
Definition installConformanceTool (test : SMITest Ctx KClient)
    (smiManifest ns : string) : M (option error) :=
  let* r := perform (in_phase installing) (CallReadRemoteFile smiManifest)
         (log_sum VString) (utils_ReadRemoteFile smiManifest) in
  match r with
  | inl err => ret (Some err)
  | inr manifest =>
    let options := mesherykube.mkApplyOptions ns false in
    let contents := list_byte_of_string manifest in
    let* e := perform (in_phase installing)
           (CallApplyManifest (kclient test) contents options)
           log_err (kclient_ApplyManifest (kclient test) contents options) in
    match e with
    | Some err => ret (Some err)
    | None =>
      let* _ := perform (in_phase installing) (CallSleep (20 * time_Second))
             (fun _ : unit => inr VUnit)
             (fun w => (tt, time_Sleep (20 * time_Second) w)) in
      ret None
    end
  end.

(** [deleteConformanceTool] deletes the smi conformance tool. *)
Definition deleteConformanceTool (test : SMITest Ctx KClient)
    (smiManifest ns : string) : M (option error) :=
  let* r := perform (in_phase deleting) (CallReadRemoteFile smiManifest)
         (log_sum VString) (utils_ReadRemoteFile smiManifest) in
  match r with
  | inl err => ret (Some err)
  | inr manifest =>
    let options := mesherykube.mkApplyOptions ns true in
    let contents := list_byte_of_string manifest in
    let* e := perform (in_phase deleting)
           (CallApplyManifest (kclient test) contents options)
           log_err (kclient_ApplyManifest (kclient test) contents options) in
    match e with
    | Some err => ret (Some err)
    | None => ret None
    end
  end.

(** [connectConformanceTool] initiates the connection; it writes
    [test.smiAddress], so the test is returned next to the error. *)
Definition connectConformanceTool (test : SMITest Ctx KClient)
    (name ns : string) : M (SMITest Ctx KClient * option error) :=
  let* r := perform (in_phase connecting)
         (CallGetServiceEndpoint (kclient test) (ctx test) name ns)
         (log_sum VEndpoint)
         (kclient_GetServiceEndpoint (kclient test) (ctx test) name ns) in
  match r with
  | inl err => ret (test, Some err)
  | inr endpoint =>
    ret (set_smiAddress
           (Sprintf_s_d (mesherykube.Address endpoint) (mesherykube.Port endpoint))
           test, None)
  end.

(** The [Detail] built from one raw record in the loop of
    [runConformanceTest]; [SmiVersion] is not among the fields the
    composite literal sets, so it has its zero value. *)
Definition Detail_of (d : conformance.Detail) : Detail :=
  {| SmiSpecification := conformance.Smispec d;
     SmiVersion := "";
     Time := conformance.Time d;
     Assertions := conformance.Assertions d;
     Result := conformance.Result d;
     Reason := conformance.Reason d;
     Capability := conformance.Capability d;
     Detail_Status := conformance.Status d |}.

(** [runConformanceTest] runs the conformance test; it writes through the
    [response] pointer, so the response is returned next to the error. *)
Definition runConformanceTest (test : SMITest Ctx KClient)
    (response : Response) : M (Response * option error) :=
  let* r := perform (in_phase running) (CallCreateClient (smiAddress test))
         (log_sum VCClient) (conformance_CreateClient (smiAddress test)) in
  match r with
  | inl err => ret (response, Some err)
  | inr cClient =>
    let req := conformance.mkRequest (annotations test) (labels test)
                 (adaptorName test) (adaptorVersion test) in
    let* r := perform (in_phase running) (CallRunTest cClient req)
           (log_sum VResponse) (cclient_RunTest cClient req) in
    match r with
    | inl err => ret (response, Some err)
    | inr result =>
      let response := set_CasesPassed (conformance.Casespassed result) response in
      let response := set_PassingPercentage (conformance.Passpercent result) response in
      let details :=
        fold_left (fun details d => (details ++ [Detail_of d])%list)
                  (conformance.Details result) [] in
      let response := set_MoreDetails details response in
      let* e := perform (in_phase running) (CallClose cClient)
             log_err (cclient_Close cClient) in
      match e with
      | Some err => ret (response, Some err)
      | None => ret (response, None)
      end
    end
  end.

(** [RunSMITest] runs the SMI test on the adapter's service mesh. *)
Definition RunSMITest (h : Adapter Clientset RestCfg)
    (opts : SMITestOptions Ctx) : M (Response * option error) :=
  let adapterName := GetName h in
  let adapterVersion := GetVersion h in
  let name := "smi-conformance" in
  let* r := perform in_RunSMITest (CallNew (KubeClient h) (RestConfig h))
         (log_sum VKClient) (mesherykube_New (KubeClient h) (RestConfig h)) in
  match r with
  | inl err =>
    ret (Response_zero,
         Some (ErrSmiInit ("error creating meshery kubernetes client: "
                           ++ error_text err)))
  | inr kclient =>
    let test :=
      {| ctx := Ctx_ opts; id := OperationID opts;
         adaptorName := adapterName; adaptorVersion := adapterVersion;
         labels := Labels opts; annotations := Annotations opts;
         kclient := kclient; smiAddress := "" |} in
    let* date := perform in_RunSMITest CallNow (fun d => inr (VString d))
              time_Now_RFC3339 in
    let response :=
      {| ID := id test; Date := date;
         MeshName := adaptorName test; MeshVersion := adaptorVersion test;
         CasesPassed := "0"; PassingPercentage := "0";
         Status := "deploying"; MoreDetails := [] |} in
    let* e := installConformanceTool test (Manifest opts) (Namespace opts) in
    match e with
    | Some err => ret (set_Status "installing" response, Some (ErrInstallSmi err))
    | None =>
    let* '(test, e) := connectConformanceTool test name (Namespace opts) in
    match e with
    | Some err => ret (set_Status "connecting" response, Some (ErrConnectSmi err))
    | None =>
    let* '(response, e) := runConformanceTest test response in
    match e with
    | Some err => ret (set_Status "running" response, Some (ErrRunSmi err))
    | None =>
    let* e := deleteConformanceTool test (Manifest opts) (Namespace opts) in
    match e with
    | Some err => ret (set_Status "deleting" response, Some (ErrDeleteSmi err))
    | None => ret (set_Status "completed" response, None)
    end end end end
  end.

(** Running from a world with nothing recorded yet. *)
Definition run {A : Type} (m : M A) (w : World) : A * (World * list event) :=
  m (w, []).

End SMI.

(** ** Reading a recorded run *)

Section Trace.

Context {Clientset RestCfg Ctx KClient CClient : Type}.

Local Abbreviation event := (@event Ctx Clientset RestCfg KClient CClient).

(** The phases the recorded calls were made from, in the order of the
    calls. *)
Fixpoint phases_of (tr : list event) : list phase :=
  match tr with
  | [] => []
  | ev :: tr' =>
    match ev_site ev with
    | in_phase p => p :: phases_of tr'
    | in_RunSMITest => phases_of tr'
    end
  end.

(** Phases never go back: along the list the phase index never drops. *)
Fixpoint in_order (ps : list phase) : bool :=
  match ps with
  | [] => true
  | p :: ps' =>
    match ps' with
    | [] => true
    | q :: _ => Nat.leb (phase_index p) (phase_index q) && in_order ps'
    end
  end.

(** The first call of a phase that failed, with the phase and the error:
    the failure of that phase. *)
Fixpoint first_failure (tr : list event) : option (phase * error) :=
  match tr with
  | [] => None
  | ev :: tr' =>
    match ev_site ev, ev_result ev with
    | in_phase p, inl err => Some (p, err)
    | _, _ => first_failure tr'
    end
  end.

(** Was a call made from phase [p]? *)
Definition invoked (p : phase) (tr : list event) : bool :=
  existsb (fun q => Nat.eqb (phase_index q) (phase_index p)) (phases_of tr).

(** Was a call made from a phase after [p]? *)
Definition invoked_after (p : phase) (tr : list event) : bool :=
  existsb (fun q => Nat.ltb (phase_index p) (phase_index q)) (phases_of tr).

(** The error of the client construction, when it failed. *)
Fixpoint init_failure (tr : list event) : option error :=
  match tr with
  | [] => None
  | ev :: tr' =>
    match ev_call ev, ev_result ev with
    | CallNew _ _, inl err => Some err
    | _, _ => init_failure tr'
    end
  end.

(** What the clock returned when the report was constructed. *)
Fixpoint clock_reading (tr : list event) : option string :=
  match tr with
  | [] => None
  | ev :: tr' =>
    match ev_call ev, ev_result ev with
    | CallNow, inr (VString date) => Some date
    | _, _ => clock_reading tr'
    end
  end.

(** What the remote test execution returned, when it succeeded. *)
Fixpoint test_result (tr : list event) : option conformance.Response :=
  match tr with
  | [] => None
  | ev :: tr' =>
    match ev_call ev, ev_result ev with
    | CallRunTest _ _, inr (VResponse result) => Some result
    | _, _ => test_result tr'
    end
  end.

(** The error of closing the client session, when it failed. *)
Fixpoint close_failure (tr : list event) : option error :=
  match tr with
  | [] => None
  | ev :: tr' =>
    match ev_call ev, ev_result ev with
    | CallClose _, inl err => Some err
    | _, _ => close_failure tr'
    end
  end.

(** The namespaces handed to the cluster client, call by call. *)
Fixpoint namespaces_used (tr : list event) : list string :=
  match tr with
  | [] => []
  | ev :: tr' =>
    match ev_call ev with
    | CallApplyManifest _ _ options =>
      mesherykube.Namespace options :: namespaces_used tr'
    | CallGetServiceEndpoint _ _ _ ns => ns :: namespaces_used tr'
    | _ => namespaces_used tr'
    end
  end.

End Trace.


(** The report fields every run with a client fills in: run identifier,
    timestamp, subject name and subject version. *)
Definition populated {Clientset RestCfg Ctx : Type}
    (h : Adapter Clientset RestCfg) (opts : SMITestOptions Ctx)
    (date : option string) (r : Response) : Prop :=
  ID r = OperationID opts
  /\ Some (Date r) = date
  /\ MeshName r = GetName h
  /\ MeshVersion r = GetVersion h.

(** The status names the phase the last recorded phase call was made from. *)
Definition names_last_phase (tr_phases : list phase) (status : string) : Prop :=
  exists p, last tr_phases = Some p /\ status = phase_name p.

(** ** Scripted worlds

    Concrete outside worlds to run the code in: every external call answers
    as the script says.  The state of the world is the number of manifest
    fetches made so far, so that the fetch of the delete phase can answer
    differently from the fetch of the install phase. *)
Record script : Type := mkScript {
  new_error : option error;
  now : string;
  fetch : nat -> error + string;
  apply : bool -> option error;
  endpoint : error + mesherykube.Endpoint;
  create_error : option error;
  test : error + conformance.Response;
  close_error : option error
}.

Definition answer {A : Type} (e : option error) (a : A) : error + A :=
  match e with
  | Some err => inl err
  | None => inr a
  end.

#[local] Instance scripted (s : script) : Externals nat unit unit unit unit unit := {|
  error_text := fun e => match e with External msg => msg | _ => "error" end;
  mesherykube_New := fun _ _ w => (answer (new_error s) tt, w);
  time_Now_RFC3339 := fun w => (now s, w);
  time_Sleep := fun _ w => w;
  utils_ReadRemoteFile := fun _ w => (fetch s w, S w);
  kclient_ApplyManifest := fun _ _ options w => (apply s (mesherykube.Delete options), w);
  kclient_GetServiceEndpoint := fun _ _ _ _ w => (endpoint s, w);
  conformance_CreateClient := fun _ w => (answer (create_error s) tt, w);
  cclient_RunTest := fun _ _ w => (test s, w);
  cclient_Close := fun _ w => (close_error s, w)
|}.

(** Three raw assertion records and the tool's answer carrying them. *)
Definition raw_assertions : list conformance.Detail :=
  [ conformance.mkDetail "traffic-access" "v1alpha3" "1.2s" "5" "passed" "" "full" "done";
    conformance.mkDetail "traffic-split" "v1alpha4" "0.8s" "2" "failed" "timeout" "half" "done";
    conformance.mkDetail "traffic-spec" "v1alpha2" "2.0s" "1" "passed" "" "full" "done" ].

Definition tool_answer : conformance.Response :=
  conformance.mkResponse "8" "100" raw_assertions.

(** The script in which every call succeeds. *)
Definition all_well : script :=
  {| new_error := None;
     now := "2020-10-01T12:00:00Z";
     fetch := fun _ => inr "kind: Deployment";
     apply := fun _ => None;
     endpoint := inr (mesherykube.mkEndpoint "10.0.0.7" 10011);
     create_error := None;
     test := inr tool_answer;
     close_error := None |}.

Definition new_fails : script :=
  {| new_error := Some (External "no cluster");
     now := now all_well; fetch := fetch all_well; apply := apply all_well;
     endpoint := endpoint all_well; create_error := None;
     test := test all_well; close_error := None |}.

Definition fetch_fails : script :=
  {| new_error := None; now := now all_well;
     fetch := fun _ => inl (External "network unreachable");
     apply := apply all_well; endpoint := endpoint all_well;
     create_error := None; test := test all_well; close_error := None |}.

Definition close_fails : script :=
  {| new_error := None; now := now all_well; fetch := fetch all_well;
     apply := apply all_well; endpoint := endpoint all_well;
     create_error := None; test := test all_well;
     close_error := Some (External "connection reset") |}.

Definition istio : Adapter unit unit :=
  {| GetName := "istio"; GetVersion := "1.7.3"; KubeClient := tt;
     RestConfig := tt; ClientcmdConfig := None |}.

Definition options_with_namespace (ns : string) : SMITestOptions unit :=
  {| Ctx_ := tt; OperationID := "op-42"; Namespace := ns;
     Manifest := "https://example.org/smi-conformance.yaml";
     Labels := {[ "app" := "smi" ]}; Annotations := ∅ |}.

(** A kubeconfig document with one user carrying inline certificate data and
    no current context, and client-go stand-ins to validate it with:
    [Load] answers with the document, [FlattenConfig] leaves it as it is and
    [MinifyConfig] refuses a document whose current context is empty, as
    client-go's does. *)
Definition inline_user : AuthInfo :=
  {| ClientCertificate := ""; ClientCertificateData := [Byte.x61; Byte.x62] |}.

Definition no_context_config : Config :=
  {| AuthInfos := {[ "admin" := inline_user ]}; CurrentContext := "" |}.

Definition Load_as (c : Config) (kubeconfig : list byte) : error + Config := inr c.

Definition Flatten_nothing (c : Config) : Config * option error := (c, None).

Definition Minify_needs_context (c : Config) : Config * option error :=
  if String.eqb (CurrentContext c) ""
  then (c, Some (External "current-context must exist in order to minify"))
  else (c, None).

(** A kubeconfig document whose users have no inline certificate data. *)
Definition path_user (path : string) : AuthInfo :=
  {| ClientCertificate := path; ClientCertificateData := [] |}.

Definition paths_only_config : Config :=
  {| AuthInfos := {[ "dev" := path_user "/certs/dev.crt";
                     "ops" := path_user "/certs/ops.crt" ]};
     CurrentContext := "dev" |}.

(** A document with a user of each kind. *)
Definition mixed_config : Config :=
  {| AuthInfos := {[ "admin" := inline_user;
                     "dev" := path_user "/certs/dev.crt" ]};
     CurrentContext := "admin" |}.

(** A file system on which no path is accessible. *)
Definition Stat_nothing (path : string) : option error :=
  Some (External "no such file or directory").

(** ** Reading the calls of a recorded run *)

Section Calls.

Context {Clientset RestCfg Ctx KClient CClient : Type}.

Local Abbreviation event := (@event Ctx Clientset RestCfg KClient CClient).

(** Is the site the phase [p]? *)
Definition at_phase (p : phase) (s : site) : bool :=
  match s with
  | in_phase q => Nat.eqb (phase_index q) (phase_index p)
  | in_RunSMITest => false
  end.

(** The cluster client [mesherykube.New] returned. *)
Fixpoint client_built (tr : list event) : option KClient :=
  match tr with
  | [] => None
  | ev :: tr' =>
    match ev_call ev, ev_result ev with
    | CallNew _ _, inr (VKClient k) => Some k
    | _, _ => client_built tr'
    end
  end.

(** What the cluster client was constructed from, call by call. *)
Fixpoint client_sources (tr : list event) : list (Clientset * RestCfg) :=
  match tr with
  | [] => []
  | ev :: tr' =>
    match ev_call ev with
    | CallNew kubeClient restConfig => (kubeClient, restConfig) :: client_sources tr'
    | _ => client_sources tr'
    end
  end.

(** The cluster clients the cluster calls went through, call by call. *)
Fixpoint clients_used (tr : list event) : list KClient :=
  match tr with
  | [] => []
  | ev :: tr' =>
    match ev_call ev with
    | CallApplyManifest k _ _ => k :: clients_used tr'
    | CallGetServiceEndpoint k _ _ _ => k :: clients_used tr'
    | _ => clients_used tr'
    end
  end.

(** The manifest fetches made from phase [p]: the location asked for and the
    text received, if any. *)
Fixpoint fetched (p : phase) (tr : list event) : list (string * option string) :=
  match tr with
  | [] => []
  | ev :: tr' =>
    match ev_call ev with
    | CallReadRemoteFile location =>
      if at_phase p (ev_site ev) then
        (location,
         match ev_result ev with
         | inr (VString text) => Some text
         | _ => None
         end) :: fetched p tr'
      else fetched p tr'
    | _ => fetched p tr'
    end
  end.

(** The manifests applied from phase [p]: contents and options. *)
Fixpoint applied (p : phase) (tr : list event)
    : list (list byte * mesherykube.ApplyOptions) :=
  match tr with
  | [] => []
  | ev :: tr' =>
    match ev_call ev with
    | CallApplyManifest _ contents options =>
      if at_phase p (ev_site ev) then (contents, options) :: applied p tr'
      else applied p tr'
    | _ => applied p tr'
    end
  end.

(** The waits, call by call. *)
Fixpoint sleeps (tr : list event) : list Z :=
  match tr with
  | [] => []
  | ev :: tr' =>
    match ev_call ev with
    | CallSleep d => d :: sleeps tr'
    | _ => sleeps tr'
    end
  end.

(** The endpoint lookups: context, service name and namespace. *)
Fixpoint endpoint_lookups (tr : list event) : list (Ctx * string * string) :=
  match tr with
  | [] => []
  | ev :: tr' =>
    match ev_call ev with
    | CallGetServiceEndpoint _ c name ns => (c, name, ns) :: endpoint_lookups tr'
    | _ => endpoint_lookups tr'
    end
  end.

(** The endpoint the lookup returned. *)
Fixpoint endpoint_resolved (tr : list event) : option mesherykube.Endpoint :=
  match tr with
  | [] => None
  | ev :: tr' =>
    match ev_call ev, ev_result ev with
    | CallGetServiceEndpoint _ _ _ _, inr (VEndpoint e) => Some e
    | _, _ => endpoint_resolved tr'
    end
  end.

(** The addresses client sessions were asked for. *)
Fixpoint sessions_requested (tr : list event) : list string :=
  match tr with
  | [] => []
  | ev :: tr' =>
    match ev_call ev with
    | CallCreateClient address => address :: sessions_requested tr'
    | _ => sessions_requested tr'
    end
  end.

(** The client sessions opened. *)
Fixpoint sessions_opened (tr : list event) : list CClient :=
  match tr with
  | [] => []
  | ev :: tr' =>
    match ev_call ev, ev_result ev with
    | CallCreateClient _, inr (VCClient c) => c :: sessions_opened tr'
    | _, _ => sessions_opened tr'
    end
  end.

(** The test executions asked for: session and request. *)
Fixpoint tests_requested (tr : list event) : list (CClient * conformance.Request) :=
  match tr with
  | [] => []
  | ev :: tr' =>
    match ev_call ev with
    | CallRunTest c req => (c, req) :: tests_requested tr'
    | _ => tests_requested tr'
    end
  end.

(** The client sessions [Close] was called on, whatever it returned. *)
Fixpoint sessions_closed (tr : list event) : list CClient :=
  match tr with
  | [] => []
  | ev :: tr' =>
    match ev_call ev with
    | CallClose c => c :: sessions_closed tr'
    | _ => sessions_closed tr'
    end
  end.

End Calls.

(** * configure.go: creating the instance *)

(** Package [rest] (client-go): [rest.Config], with the two fields
    [createKubeClient] writes.  [float32] is Go's type of that name, [Rest]
    stands for the fields left alone. *)
Module rest.

Record Config (float32 Rest : Type) : Type := mkConfig {
  QPS : float32;
  Burst : Z;
  others : Rest
}.
Arguments mkConfig {float32 Rest}.
Arguments QPS {float32 Rest}.
Arguments Burst {float32 Rest}.
Arguments others {float32 Rest}.

End rest.

(** Package [models] (meshkit): the kubeconfig as [yaml.Unmarshal] fills it
    in.  [Obj] is the type of the values handed to [SetObject]. *)
Module models.

Record Kubeconfig (Obj : Type) : Type := mkKubeconfig {
  Kind : string;
  APIVersion : string;
  CurrentContext : string;
  Preferences : Obj;
  Clusters : Obj;
  Users : Obj;
  Contexts : Obj
}.
Arguments mkKubeconfig {Obj}.
Arguments Kind {Obj}.
Arguments APIVersion {Obj}.
Arguments CurrentContext {Obj}.
Arguments Preferences {Obj}.
Arguments Clusters {Obj}.
Arguments Users {Obj}.
Arguments Contexts {Obj}.

End models.

Definition Config_with_CurrentContext (c : Config) (contextName : string) : Config :=
  {| AuthInfos := AuthInfos c; CurrentContext := contextName |}.

(** The [Adapter] struct as [CreateInstance] sees it: the record [Adapter]
    above, with its [RestConfig] a [rest.Config], and the other fields
    [configure.go] writes.  [Dyn] is [dynamic.Interface], [KClient] is
    [*mesherykube.Client], [Handler] is the [config.Handler] behind
    [KubeconfigHandler], [Chan] is [*chan interface{}]. *)
Record AdapterState (float32 Rest Clientset Dyn KClient Handler Chan : Type)
    : Type := mkAdapterState {
  adapter : Adapter Clientset (rest.Config float32 Rest);
  DynamicKubeClient : Dyn;
  MesheryKubeclient : KClient;
  KubeconfigHandler : Handler;
  Channel : Chan
}.
Arguments mkAdapterState {float32 Rest Clientset Dyn KClient Handler Chan}.
Arguments adapter {float32 Rest Clientset Dyn KClient Handler Chan}.
Arguments DynamicKubeClient {float32 Rest Clientset Dyn KClient Handler Chan}.
Arguments MesheryKubeclient {float32 Rest Clientset Dyn KClient Handler Chan}.
Arguments KubeconfigHandler {float32 Rest Clientset Dyn KClient Handler Chan}.
Arguments Channel {float32 Rest Clientset Dyn KClient Handler Chan}.

(** What a call comes to: it returns, or it panics. *)
Inductive outcome (A : Type) : Type :=
| Returns (a : A)
| Panics.
Arguments Returns {A}.
Arguments Panics {A}.

(** What [configure.go] calls outside the file, the environment (file
    system, process, cluster) held fixed during the call, as for
    [validateKubeconfig].

    Modelled from the spec: [ErrCreateInstance] and [ErrClientSet] are
    constructors of [adapter/error.go], which is not part of the sources at
    hand; the spec has them label the cause they wrap
    (InstanceCreationError, ClientConstructionError).  They are taken as
    they come. *)
Class ClientGo (float32 Rest Clientset Dyn KClient Obj Handler : Type) : Type := {
  ErrCreateInstance : error -> error;
  ErrClientSet : error -> error;
  (** The conversion [float32(n)] of an integer constant. *)
  float32_of_int : Z -> float32;
  clientcmd_RESTConfigFromKubeConfig :
    list byte -> error + rest.Config float32 Rest;
  rest_InClusterConfig : error + rest.Config float32 Rest;
  kubernetes_NewForConfig : rest.Config float32 Rest -> error + Clientset;
  dynamic_NewForConfig : rest.Config float32 Rest -> error + Dyn;
  yaml_Unmarshal : list byte -> error + models.Kubeconfig Obj;
  Handler_SetKey : string -> string -> Handler -> Handler;
  Handler_SetObject : string -> Obj -> Handler -> Handler * option error;
  mesherykube_New_client :
    Clientset -> rest.Config float32 Rest -> error + KClient
}.

Section Instance.

Context {float32 Rest Clientset Dyn KClient Obj Handler Chan : Type}.
Context {cg : ClientGo float32 Rest Clientset Dyn KClient Obj Handler}.

Variable os_Stat : string -> option error.
Variable clientcmd_Load : list byte -> error + Config.
Variable clientcmdapi_FlattenConfig : Config -> Config * option error.
Variable clientcmdapi_MinifyConfig : Config -> Config * option error.

Local Abbreviation State :=
  (AdapterState float32 Rest Clientset Dyn KClient Handler Chan).

(** Assignments to fields of the adapter. *)
Definition with_adapter (h : State)
    (a : Adapter Clientset (rest.Config float32 Rest)) : State :=
  {| adapter := a; DynamicKubeClient := DynamicKubeClient h;
     MesheryKubeclient := MesheryKubeclient h;
     KubeconfigHandler := KubeconfigHandler h; Channel := Channel h |}.

Definition with_clients (h : State) (clientset : Clientset)
    (dynamicClient : Dyn) (restConfig : rest.Config float32 Rest) : State :=
  {| adapter :=
       {| GetName := GetName (adapter h); GetVersion := GetVersion (adapter h);
          KubeClient := clientset; RestConfig := restConfig;
          ClientcmdConfig := ClientcmdConfig (adapter h) |};
     DynamicKubeClient := dynamicClient;
     MesheryKubeclient := MesheryKubeclient h;
     KubeconfigHandler := KubeconfigHandler h; Channel := Channel h |}.

Definition with_KubeconfigHandler (h : State) (handler : Handler) : State :=
  {| adapter := adapter h; DynamicKubeClient := DynamicKubeClient h;
     MesheryKubeclient := MesheryKubeclient h;
     KubeconfigHandler := handler; Channel := Channel h |}.

Definition with_MesheryKubeclient (h : State) (client : KClient) : State :=
  {| adapter := adapter h; DynamicKubeClient := DynamicKubeClient h;
     MesheryKubeclient := client;
     KubeconfigHandler := KubeconfigHandler h; Channel := Channel h |}.

Definition with_context_and_Channel (h : State) (c : Config)
    (contextName : string) (ch : Chan) : State :=
  {| adapter :=
       Adapter_with_ClientcmdConfig (adapter h)
         (Config_with_CurrentContext c contextName);
     DynamicKubeClient := DynamicKubeClient h;
     MesheryKubeclient := MesheryKubeclient h;
     KubeconfigHandler := KubeconfigHandler h; Channel := ch |}.

(** [restConfig.QPS = float32(50)] and [restConfig.Burst = int(100)]. *)
Definition tuned (restConfig : rest.Config float32 Rest)
    : rest.Config float32 Rest :=
  let restConfig :=
    rest.mkConfig (float32_of_int 50) (rest.Burst restConfig)
      (rest.others restConfig) in
  rest.mkConfig (rest.QPS restConfig) 100 (rest.others restConfig).

Definition createKubeClient (h : State) (kubeconfig : list byte)
    : State * option error :=
  let restConfig :=
    if Nat.ltb 0 (length kubeconfig) then
      match clientcmd_RESTConfigFromKubeConfig kubeconfig with
      | inl err => inl (ErrClientSet err)
      | inr restConfig => inr restConfig
      end
    else
      match rest_InClusterConfig with
      | inl err => inl (ErrClientSet err)
      | inr restConfig => inr restConfig
      end in
  match restConfig with
  | inl err => (h, Some err)
  | inr restConfig =>
    let restConfig := tuned restConfig in
    match kubernetes_NewForConfig restConfig with
    | inl err => (h, Some (ErrClientSet err))
    | inr clientset =>
      match dynamic_NewForConfig restConfig with
      | inl err => (h, Some (ErrClientSet err))
      | inr dynamicClient =>
        (with_clients h clientset dynamicClient restConfig, None)
      end
    end
  end.

(** The handler is written through as the function goes, so it is returned
    next to the error also when the function fails. *)
Definition createKubeconfig (h : State) (kubeconfig : list byte)
    : State * option error :=
  match yaml_Unmarshal kubeconfig with
  | inl err => (h, Some err)
  | inr kconfig =>
    let handler := KubeconfigHandler h in
    let handler := Handler_SetKey "kind" (models.Kind kconfig) handler in
    let handler := Handler_SetKey "apiVersion" (models.APIVersion kconfig) handler in
    let handler :=
      Handler_SetKey "current-context" (models.CurrentContext kconfig) handler in
    match Handler_SetObject "preferences" (models.Preferences kconfig) handler with
    | (handler, Some err) => (with_KubeconfigHandler h handler, Some err)
    | (handler, None) =>
    match Handler_SetObject "clusters" (models.Clusters kconfig) handler with
    | (handler, Some err) => (with_KubeconfigHandler h handler, Some err)
    | (handler, None) =>
    match Handler_SetObject "users" (models.Users kconfig) handler with
    | (handler, Some err) => (with_KubeconfigHandler h handler, Some err)
    | (handler, None) =>
    match Handler_SetObject "contexts" (models.Contexts kconfig) handler with
    | (handler, Some err) => (with_KubeconfigHandler h handler, Some err)
    | (handler, None) => (with_KubeconfigHandler h handler, None)
    end end end end
  end.

Definition createMesheryKubeclient (h : State) (kubeconfig : list byte)
    : State * option error :=
  match mesherykube_New_client (KubeClient (adapter h)) (RestConfig (adapter h)) with
  | inl err => (h, Some err)
  | inr client => (with_MesheryKubeclient h client, None)
  end.

(** [CreateInstance] instantiates the clients used in deploying and managing
    mesh instances.  The adapter is written through as the function goes,
    so it is returned next to the error; the assignment to
    [h.ClientcmdConfig.CurrentContext] panics on a nil [ClientcmdConfig]. *)
Definition CreateInstance (h : State) (kubeconfig : list byte)
    (contextName : string) (ch : Chan) : outcome (State * option error) :=
  match validateKubeconfig os_Stat clientcmd_Load clientcmdapi_FlattenConfig
          clientcmdapi_MinifyConfig (adapter h) kubeconfig with
  | (a, Some err) => Returns (with_adapter h a, Some (ErrCreateInstance err))
  | (a, None) =>
  let h := with_adapter h a in
  match createKubeClient h kubeconfig with
  | (h, Some err) => Returns (h, Some (ErrCreateInstance err))
  | (h, None) =>
  match createKubeconfig h kubeconfig with
  | (h, Some err) => Returns (h, Some (ErrCreateInstance err))
  | (h, None) =>
  match createMesheryKubeclient h kubeconfig with
  | (h, Some err) => Returns (h, Some (ErrCreateInstance err))
  | (h, None) =>
    match ClientcmdConfig (adapter h) with
    | None => Panics
    | Some clientcmdConfig =>
      Returns (with_context_and_Channel h clientcmdConfig contextName ch, None)
    end
  end end end end.

End Instance.

(** * validate.go *)

Module validate.

(** The event streamed to the client, with the fields
    [ValidateSMIConformance] writes. *)
Record Event : Type := mkEvent {
  Operationid : string;
  Summary : string;
  Details : string
}.

Record SmiTestOptions (Ctx : Type) : Type := mkSmiTestOptions {
  Ctx_ : Ctx;
  OpID : string;
  Labels : gmap string string;
  Annotations : gmap string string
}.
Arguments mkSmiTestOptions {Ctx}.
Arguments Ctx_ {Ctx}.
Arguments OpID {Ctx}.
Arguments Labels {Ctx}.
Arguments Annotations {Ctx}.

(** What [validate.go] calls outside the file.  [Test] is meshkit's
    [*smi.SmiTest] and [Result] its [smi.Response], of which the function
    reads the status; [smi.New] and [Run] act on the outside world, and so
    do the two streaming methods of the adapter.

    Modelled from the spec: [StreamErr] and [StreamInfo] are methods of
    [adapter/stream.go], [ErrNewSmi] is a constructor of [adapter/error.go]
    and [status.Deploying] a constant of the [status] package, none part of
    the sources at hand; the spec has the adapter push notification events
    to the attached channel.  They are taken as they come. *)
Class Tool (World Ctx Clientset Test Result : Type) : Type := {
  ErrNewSmi : error -> error;
  status_Deploying : string;
  (** [err.Error()]. *)
  Error : error -> string;
  strings_ToLower : string -> string;
  smi_New :
    Ctx -> string -> string -> string -> Clientset -> World -> (error + Test) * World;
  Run :
    Test -> gmap string string -> gmap string string -> World
    -> (Result * option error) * World;
  Result_Status : Result -> string;
  json_Marshal : Result -> error + list byte;
  StreamErr : Event -> error -> World -> World;
  StreamInfo : Event -> World -> World
}.

Section ValidateSMI.

Context {World Ctx Clientset RestCfg Test Result : Type}.
Context {tool : Tool World Ctx Clientset Test Result}.

(** A call that leaves the file, with its arguments. *)
Inductive call : Type :=
| CallNew (c : Ctx) (opID version name : string) (kubeClient : Clientset)
| CallRun (t : Test) (labels annotations : gmap string string)
| CallStreamErr (e : Event) (err : error)
| CallStreamInfo (e : Event).

(** The state monad: the outside world and the calls made so far. *)
Definition M (A : Type) : Type := World * list call -> A * (World * list call).

Definition perform {A : Type} (c : call) (f : World -> A * World) : M A :=
  fun s =>
    let (w, calls) := s in
    let (a, w') := f w in
    (a, (w', (calls ++ [c])%list)).

Definition with_Summary_Details (e : Event) (summary details : string) : Event :=
  {| Operationid := Operationid e; Summary := summary; Details := details |}.

(** [string(jsondata)] after [jsondata, _ := json.Marshal(result)]: the
    error is dropped, and the bytes are nil when there is one. *)
Definition marshalled (result : Result) : string :=
  match json_Marshal result with
  | inr jsondata => string_of_list_byte jsondata
  | inl _ => ""
  end.

Definition ValidateSMIConformance (h : Adapter Clientset RestCfg)
    (opts : SmiTestOptions Ctx) : M (option error) :=
  fun s =>
  let e := {| Operationid := OpID opts; Summary := status_Deploying;
              Details := "None" |} in
  let name := strings_ToLower (GetName h) in
  let (r, s) :=
    perform (CallNew (Ctx_ opts) (OpID opts) (GetVersion h) name (KubeClient h))
      (smi_New (Ctx_ opts) (OpID opts) (GetVersion h) name (KubeClient h)) s in
  match r with
  | inl err =>
    let e := with_Summary_Details e
               "Error while creating smi-conformance tool" (Error err) in
    let (_, s) :=
      perform (CallStreamErr e (ErrNewSmi err))
        (fun w => (tt, StreamErr e (ErrNewSmi err) w)) s in
    (Some err, s)
  | inr test =>
    let (r, s) :=
      perform (CallRun test (Labels opts) (Annotations opts))
        (Run test (Labels opts) (Annotations opts)) s in
    let (result, err) := r in
    match err with
    | Some err =>
      let e := with_Summary_Details e
                 ("Error while " ++ Result_Status result
                  ++ " running smi-conformance test")
                 (Error err) in
      let (_, s) :=
        perform (CallStreamErr e (ErrRunSmi err))
          (fun w => (tt, StreamErr e (ErrRunSmi err) w)) s in
      (Some err, s)
    | None =>
      let e := with_Summary_Details e
                 ("Smi conformance test " ++ Result_Status result
                  ++ " successfully")
                 (marshalled result) in
      let (_, s) := perform (CallStreamInfo e) (fun w => (tt, StreamInfo e w)) s in
      (None, s)
    end
  end.


(** The calls that set the conformance tool to work. *)
Fixpoint tool_calls (calls : list call) : list call :=
  match calls with
  | [] => []
  | CallNew c opID version name kubeClient :: calls' =>
    CallNew c opID version name kubeClient :: tool_calls calls'
  | CallRun t labels annotations :: calls' =>
    CallRun t labels annotations :: tool_calls calls'
  | _ :: calls' => tool_calls calls'
  end.

End ValidateSMI.

End validate.

(** ** Scripted clusters

    Concrete surroundings to run [CreateInstance] in: every call answers as
    the script says.  A [float32] is a whole number here, the handler is the
    list of the keys written to it, the other types are trivial. *)
Record cluster_script : Type := mkClusterScript {
  kubeconfig_rest : error + rest.Config Z unit;
  in_cluster_rest : error + rest.Config Z unit;
  clientset_error : option error;
  dynamic_error : option error;
  unmarshalled : error + models.Kubeconfig string;
  object_error : string -> option error;
  meshery_error : option error
}.

(** The text of an error. *)
Fixpoint describe (e : error) : string :=
  match e with
  | External msg => msg
  | ErrAuthInfosInvalidMsg => "none of the auth infos are valid"
  | ErrValidateKubeconfig cause => "validating kubeconfig: " ++ describe cause
  | ErrSmiInit desc => desc
  | ErrInstallSmi cause => "installing smi tool: " ++ describe cause
  | ErrConnectSmi cause => "connecting to smi tool: " ++ describe cause
  | ErrRunSmi cause => "running smi tool: " ++ describe cause
  | ErrDeleteSmi cause => "deleting smi tool: " ++ describe cause
  end.

#[local] Instance scripted_cluster (s : cluster_script)
    : ClientGo Z unit unit unit unit string (list string) := {|
  ErrCreateInstance := fun cause => External ("creating instance: " ++ describe cause);
  ErrClientSet := fun cause => External ("creating client set: " ++ describe cause);
  float32_of_int := fun n => n;
  clientcmd_RESTConfigFromKubeConfig := fun _ => kubeconfig_rest s;
  rest_InClusterConfig := in_cluster_rest s;
  kubernetes_NewForConfig := fun _ => answer (clientset_error s) tt;
  dynamic_NewForConfig := fun _ => answer (dynamic_error s) tt;
  yaml_Unmarshal := fun _ => unmarshalled s;
  Handler_SetKey := fun key _ handler => (handler ++ [key])%list;
  Handler_SetObject := fun key _ handler =>
    match object_error s key with
    | Some err => (handler, Some err)
    | None => ((handler ++ [key])%list, None)
    end;
  mesherykube_New_client := fun _ _ => answer (meshery_error s) tt
|}.

(** The cluster in which every call succeeds, and the one in which no
    client set can be built. *)
Definition cluster_well : cluster_script :=
  {| kubeconfig_rest := inr (rest.mkConfig 5%Z 10%Z tt);
     in_cluster_rest := inr (rest.mkConfig 5%Z 10%Z tt);
     clientset_error := None;
     dynamic_error := None;
     unmarshalled :=
       inr (models.mkKubeconfig "Config" "v1" "admin" "{}" "[]" "[]" "[]");
     object_error := fun _ => None;
     meshery_error := None |}.

Definition cluster_without_clientset : cluster_script :=
  {| kubeconfig_rest := kubeconfig_rest cluster_well;
     in_cluster_rest := in_cluster_rest cluster_well;
     clientset_error := Some (External "no route to host");
     dynamic_error := None;
     unmarshalled := unmarshalled cluster_well;
     object_error := fun _ => None;
     meshery_error := None |}.

(** An adapter before [CreateInstance], and kubeconfig bytes that are not
    empty. *)
Definition fresh_adapter : AdapterState Z unit unit unit unit (list string) (option nat) :=
  {| adapter :=
       {| GetName := "istio"; GetVersion := "1.7.3"; KubeClient := tt;
          RestConfig := rest.mkConfig 0%Z 0%Z tt; ClientcmdConfig := None |};
     DynamicKubeClient := tt; MesheryKubeclient := tt;
     KubeconfigHandler := []; Channel := None |}.

Definition some_bytes : list byte := [Byte.x61].

(** A file system on which every path is accessible. *)
Definition Stat_everything (path : string) : option error := None.

(** A file system on which one path is accessible and no other. *)
Definition Stat_only (accessible path : string) : option error :=
  if String.eqb path accessible then None
  else Some (External "no such file or directory").

(** * Properties of configure.go *)

Section ConfigureFacts.

Variable os_Stat : string -> option error.

Local Abbreviation body := (filter_body os_Stat).
Local Abbreviation ok := (usable os_Stat).
Local Abbreviation keep := (kept os_Stat).
Local Abbreviation filter_in := (filterK8sConfigAuthInfos_in os_Stat).

Lemma filter_body_usable (m : gmap string AuthInfo) k a :
  ok a = true -> body m (k, a) = m.
Proof.
  unfold usable, filter_body.
  destruct (Nat.eqb _ 0); simpl; [|done].
  destruct (os_Stat _); [discriminate | done].
Qed.

Lemma filter_body_unusable (m : gmap string AuthInfo) k a :
  ok a = false -> body m (k, a) = delete k m.
Proof.
  unfold usable, filter_body.
  destruct (Nat.eqb _ 0); simpl; [|discriminate].
  destruct (os_Stat _); [done | discriminate].
Qed.

Lemma filter_body_cases (m : gmap string AuthInfo) k a :
  body m (k, a) = if ok a then m else delete k m.
Proof.
  destruct (ok a) eqn:Hu;
    [by apply filter_body_usable | by apply filter_body_unusable].
Qed.

(** The loop only deletes: a key that is absent stays absent. *)
Lemma loop_lookup_None l (m : gmap string AuthInfo) k :
  m !! k = None -> fold_left body l m !! k = None.
Proof.
  revert m. induction l as [|[k' a'] l IH]; intros m Hm; [done|].
  cbn [fold_left]. apply IH. rewrite filter_body_cases.
  destruct (ok a'); [done|].
  rewrite lookup_delete. case_decide; done.
Qed.

(** An unusable entry the loop visits is gone afterwards. *)
Lemma loop_lookup_unusable l (m : gmap string AuthInfo) k a :
  (k, a) ∈ l -> ok a = false -> fold_left body l m !! k = None.
Proof.
  revert m. induction l as [|[k' a'] l IH]; intros m Hin Hu.
  - by apply elem_of_nil in Hin.
  - cbn [fold_left]. apply elem_of_cons in Hin as [Heq|Hin].
    + injection Heq as <- <-. apply loop_lookup_None.
      rewrite filter_body_unusable by done. apply lookup_delete_eq.
    + by apply IH.
Qed.

(** A key under which the loop visits usable entries only is untouched. *)
Lemma loop_lookup_usable l (m : gmap string AuthInfo) k :
  (forall a, (k, a) ∈ l -> ok a = true) ->
  fold_left body l m !! k = m !! k.
Proof.
  revert m. induction l as [|[k' a'] l IH]; intros m Hall; [done|].
  cbn [fold_left]. rewrite IH.
  - rewrite filter_body_cases. destruct (ok a') eqn:Hu; [done|].
    rewrite lookup_delete. case_decide as Hk; [|done].
    subst k'. rewrite (Hall a') in Hu; [done | apply elem_of_cons; by left].
  - intros a Ha. apply Hall, elem_of_cons. by right.
Qed.

(** Whatever the iteration order, the loop leaves the entries the spec
    says it keeps. *)
Lemma loop_is_kept order (m : gmap string AuthInfo) :
  iteration_order order m -> fold_left body order m = keep m.
Proof.
  unfold iteration_order. intros Hperm. apply map_eq. intros k.
  unfold kept.
  destruct (m !! k) as [a|] eqn:Hk.
  - destruct (ok a) eqn:Hu.
    + rewrite loop_lookup_usable.
      * rewrite Hk. symmetry. apply map_lookup_filter_Some. by split.
      * intros a' Ha'. rewrite Hperm in Ha'.
        apply elem_of_map_to_list in Ha'. congruence.
    + rewrite (loop_lookup_unusable order m k a); [| |done].
      * symmetry. apply map_lookup_filter_None. right.
        intros a' Ha'. simpl. congruence.
      * rewrite Hperm. by apply elem_of_map_to_list.
  - rewrite loop_lookup_None by done.
    symmetry. apply map_lookup_filter_None. by left.
Qed.

Lemma filter_in_kept order (m : gmap string AuthInfo) :
  iteration_order order m ->
  filter_in order m
  = (keep m, if decide (keep m = ∅) then Some ErrAuthInfosInvalidMsg else None).
Proof.
  intros Ho. unfold filter_in, filterK8sConfigAuthInfos_in.
  rewrite (loop_is_kept _ _ Ho).
  destruct (Nat.eqb (size (keep m)) 0) eqn:Hs.
  - apply Nat.eqb_eq, map_size_empty_iff in Hs. rewrite decide_True; done.
  - apply Nat.eqb_neq in Hs. rewrite decide_False; [done|].
    intros He. apply Hs. by apply map_size_empty_iff.
Qed.

Lemma iteration_order_map_to_list (m : gmap string AuthInfo) :
  iteration_order (map_to_list m) m.
Proof. unfold iteration_order. reflexivity. Qed.

Lemma kept_kept (m : gmap string AuthInfo) : keep (keep m) = keep m.
Proof.
  unfold kept. apply map_filter_id.
  intros k a Hk. apply map_lookup_filter_Some in Hk. tauto.
Qed.

End ConfigureFacts.

Section ValidateFacts.

Variable os_Stat : string -> option error.
Context {Clientset RestCfg : Type}.
Variable clientcmd_Load : list byte -> error + Config.
Variable clientcmdapi_FlattenConfig : Config -> Config * option error.
Variable clientcmdapi_MinifyConfig : Config -> Config * option error.

Local Abbreviation filter_in := (filterK8sConfigAuthInfos_in os_Stat).
Local Abbreviation validate :=
  (validateKubeconfig os_Stat (Clientset := Clientset) (RestCfg := RestCfg)
     clientcmd_Load clientcmdapi_FlattenConfig clientcmdapi_MinifyConfig).

(** C6.  A well-formed kubeconfig document in which every auth-info entry
    has no inline certificate data and a certificate path that cannot be
    accessed: the filter, in whatever order it visits the entries, deletes
    every entry and returns the no-usable-credentials error, and
    [validateKubeconfig] fails with that error (under its validation
    label) and leaves the adapter as it was. *)
Theorem validate_no_usable_credentials
    (h : Adapter Clientset RestCfg) (kubeconfig : list byte) (cfg : Config) :
  clientcmd_Load kubeconfig = inr cfg ->
  (forall k a, AuthInfos cfg !! k = Some a ->
     length (ClientCertificateData a) = 0
     /\ is_Some (os_Stat (ClientCertificate a))) ->
  (forall order, iteration_order order (AuthInfos cfg) ->
     filter_in order (AuthInfos cfg) = (∅, Some ErrAuthInfosInvalidMsg))
  /\ validate h kubeconfig
     = (h, Some (ErrValidateKubeconfig ErrAuthInfosInvalidMsg)).
Proof.
  intros Hload Hall.
  assert (Hkept : kept os_Stat (AuthInfos cfg) = ∅).
  { apply map_empty. intros k. apply map_lookup_filter_None.
    destruct (AuthInfos cfg !! k) as [a|] eqn:Hk; [right | by left].
    intros a' [= <-]. simpl. destruct (Hall k a Hk) as [Hlen [e He]].
    unfold usable. rewrite Hlen, He. simpl. discriminate. }
  assert (Hfilter : forall order, iteration_order order (AuthInfos cfg) ->
            filter_in order (AuthInfos cfg) = (∅, Some ErrAuthInfosInvalidMsg)).
  { intros order Ho. rewrite (filter_in_kept _ _ _ Ho), Hkept.
    rewrite decide_True; done. }
  split; [exact Hfilter|].
  unfold validateKubeconfig, filterK8sConfigAuthInfos. rewrite Hload.
  rewrite (Hfilter _ (iteration_order_map_to_list _)). reflexivity.
Qed.

(** C7 (as amended).  A well-formed kubeconfig document with an auth-info
    entry that has inline certificate data: the filter, in whatever order
    it visits the entries and whatever the other entries' certificate
    paths, returns no error and keeps that entry as it is; the outcome of
    [validateKubeconfig] is then the outcome of flattening and minifying
    the filtered document, either error coming back under the validation
    label. *)
Theorem validate_inline_entry_passes_filter
    (h : Adapter Clientset RestCfg) (kubeconfig : list byte) (cfg : Config)
    (k : string) (a : AuthInfo) :
  clientcmd_Load kubeconfig = inr cfg ->
  AuthInfos cfg !! k = Some a ->
  ClientCertificateData a <> [] ->
  exists authInfos,
    (forall order, iteration_order order (AuthInfos cfg) ->
       filter_in order (AuthInfos cfg) = (authInfos, None))
    /\ authInfos !! k = Some a
    /\ validate h kubeconfig
       = match clientcmdapi_FlattenConfig (Config_with_AuthInfos cfg authInfos) with
         | (_, Some err) => (h, Some (ErrValidateKubeconfig err))
         | (flat, None) =>
           match clientcmdapi_MinifyConfig flat with
           | (_, Some err) => (h, Some (ErrValidateKubeconfig err))
           | (minified, None) => (Adapter_with_ClientcmdConfig h minified, None)
           end
         end.
Proof.
  intros Hload Hk Hdata.
  assert (Hu : usable os_Stat a = true).
  { unfold usable. destruct (ClientCertificateData a); [done|reflexivity]. }
  assert (Hin : kept os_Stat (AuthInfos cfg) !! k = Some a).
  { apply map_lookup_filter_Some. by split. }
  assert (Hfilter : forall order, iteration_order order (AuthInfos cfg) ->
            filter_in order (AuthInfos cfg) = (kept os_Stat (AuthInfos cfg), None)).
  { intros order Ho. rewrite (filter_in_kept _ _ _ Ho).
    rewrite decide_False; [done|]. intros He. rewrite He in Hin.
    by rewrite lookup_empty in Hin. }
  exists (kept os_Stat (AuthInfos cfg)). split; [exact Hfilter|]. split; [exact Hin|].
  unfold validateKubeconfig, filterK8sConfigAuthInfos. rewrite Hload.
  rewrite (Hfilter _ (iteration_order_map_to_list _)).
  destruct (clientcmdapi_FlattenConfig _) as [flat [err|]]; [done|].
  destruct (clientcmdapi_MinifyConfig flat) as [minified [err|]]; done.
Qed.

(** C8.  The filter is idempotent, the file system held fixed: run again
    on the map it left, visiting the entries in whatever order, it leaves
    the same map and returns the same error or absence of error. *)
Theorem filter_idempotent (authInfos : gmap string AuthInfo)
    (order order' : list (string * AuthInfo)) :
  iteration_order order authInfos ->
  iteration_order order' (filter_in order authInfos).1 ->
  filter_in order' (filter_in order authInfos).1 = filter_in order authInfos.
Proof.
  intros Ho. rewrite (filter_in_kept _ _ _ Ho). simpl. intros Ho'.
  rewrite (filter_in_kept _ _ _ Ho'), kept_kept. reflexivity.
Qed.

End ValidateFacts.

Lemma validate_no_usable_credentials_witness :
  validateKubeconfig Stat_nothing (Load_as paths_only_config)
    Flatten_nothing Minify_needs_context istio []
  = (istio, Some (ErrValidateKubeconfig ErrAuthInfosInvalidMsg)).
Proof.
  apply (validate_no_usable_credentials Stat_nothing (Load_as paths_only_config)
           Flatten_nothing Minify_needs_context istio [] paths_only_config).
  - reflexivity.
  - intros k a Hk. simpl in Hk.
    apply lookup_insert_Some in Hk as [[_ <-]|[_ Hk]].
    + split; [reflexivity | by eexists].
    + apply lookup_singleton_Some in Hk as [_ <-].
      split; [reflexivity | by eexists].
Defined.

(** Validation fails on a document that has an entry with inline certificate
    data: the filter passes it, minifying the document does not. *)
Lemma validate_fails_despite_inline_data :
  Load_as no_context_config [] = inr no_context_config
  /\ AuthInfos no_context_config !! "admin" = Some inline_user
  /\ ClientCertificateData inline_user <> []
  /\ validateKubeconfig Stat_nothing (Load_as no_context_config)
       Flatten_nothing Minify_needs_context istio []
     = (istio,
        Some (ErrValidateKubeconfig
                (External "current-context must exist in order to minify"))).
Proof.
  split; [reflexivity|]. split; [reflexivity|]. split; [discriminate|].
  vm_compute. reflexivity.
Qed.

Lemma validate_inline_entry_passes_filter_witness :
  exists authInfos,
    (forall order, iteration_order order (AuthInfos mixed_config) ->
       filterK8sConfigAuthInfos_in Stat_nothing order (AuthInfos mixed_config)
       = (authInfos, None))
    /\ authInfos !! "admin" = Some inline_user
    /\ validateKubeconfig Stat_nothing (Load_as mixed_config)
         Flatten_nothing Minify_needs_context istio []
       = (Adapter_with_ClientcmdConfig istio
            (Config_with_AuthInfos mixed_config authInfos), None).
Proof.
  apply (validate_inline_entry_passes_filter Stat_nothing
           (Load_as mixed_config) Flatten_nothing Minify_needs_context
           istio [] mixed_config "admin" inline_user).
  - reflexivity.
  - reflexivity.
  - discriminate.
Defined.

Lemma filter_idempotent_witness :
  let once :=
    filterK8sConfigAuthInfos_in Stat_nothing
      (map_to_list (AuthInfos mixed_config)) (AuthInfos mixed_config) in
  filterK8sConfigAuthInfos_in Stat_nothing (map_to_list once.1) once.1 = once.
Proof.
  apply (filter_idempotent Stat_nothing (AuthInfos mixed_config)
           (map_to_list (AuthInfos mixed_config))
           (map_to_list
              (filterK8sConfigAuthInfos_in Stat_nothing
                 (map_to_list (AuthInfos mixed_config))
                 (AuthInfos mixed_config)).1)).
  - unfold iteration_order. reflexivity.
  - unfold iteration_order. reflexivity.
Defined.

(** * Properties of smi.go *)

(** Unfold a run down to the external calls it makes. *)
Ltac unfold_run :=
  unfold run, RunSMITest, installConformanceTool, connectConformanceTool,
    runConformanceTest, deleteConformanceTool, bind, perform, ret;
  cbn [fst snd app].

(** Take the outcome of the next external call apart. *)
Ltac split_call c :=
  let r := fresh "r" in
  let w := fresh "w" in
  let E := fresh "E" in
  destruct c as [r w] eqn:E; try (destruct r);
  cbn [fst snd app log_sum log_err].

Ltac next_call :=
  match goal with
  | |- context [mesherykube_New ?a ?b ?w] => split_call (mesherykube_New a b w)
  | |- context [time_Now_RFC3339 ?w] => split_call (time_Now_RFC3339 w)
  | |- context [utils_ReadRemoteFile ?a ?w] => split_call (utils_ReadRemoteFile a w)
  | |- context [kclient_ApplyManifest ?a ?b ?c ?w] =>
    split_call (kclient_ApplyManifest a b c w)
  | |- context [kclient_GetServiceEndpoint ?a ?b ?c ?d ?w] =>
    split_call (kclient_GetServiceEndpoint a b c d w)
  | |- context [conformance_CreateClient ?a ?w] =>
    split_call (conformance_CreateClient a w)
  | |- context [cclient_RunTest ?a ?b ?w] => split_call (cclient_RunTest a b w)
  | |- context [cclient_Close ?a ?w] => split_call (cclient_Close a w)
  end.

Section SMIFacts.

Context {World Ctx Clientset RestCfg KClient CClient : Type}.
Context {ext : Externals World Ctx Clientset RestCfg KClient CClient}.

(** The loop of [runConformanceTest] builds the list of the records'
    details, one after the other. *)
Lemma details_loop (raw : list conformance.Detail) (acc : list Detail) :
  fold_left (fun details d => (details ++ [Detail_of d])%list) raw acc
  = (acc ++ map Detail_of raw)%list.
Proof.
  revert acc. induction raw as [|d raw IH]; intros acc; cbn [fold_left map].
  - by rewrite app_nil_r.
  - rewrite IH, <- app_assoc. reflexivity.
Qed.

(** A phase fails exactly when one of its calls fails, with the error of
    that call, and its calls are recorded as made from it. *)
Lemma phase_failure_recorded (test : SMITest Ctx KClient)
    (response : Response) (location name ns : string) (w : World) :
  let failure_of (p : phase) (tr : list event) (e : option error) :=
    match e with
    | Some cause => first_failure tr = Some (p, cause)
    | None => first_failure tr = None /\ invoked p tr = true
    end in
  (let '(e, (_, tr)) := run (installConformanceTool test location ns) w in
   failure_of installing tr e)
  /\ (let '((_, e), (_, tr)) := run (connectConformanceTool test name ns) w in
      failure_of connecting tr e)
  /\ (let '((_, e), (_, tr)) := run (runConformanceTest test response) w in
      failure_of running tr e)
  /\ (let '(e, (_, tr)) := run (deleteConformanceTool test location ns) w in
      failure_of deleting tr e).
Proof.
  cbv zeta. repeat split; unfold_run; repeat next_call; cbn; by repeat split.
Qed.

(** C2.  The calls of a run come from the phases installing, connecting,
    running, deleting, in this order, and stop with the first phase that
    fails: when a phase fails, the report's status is the name of that
    phase, the error is the cause under that phase's label, and no call
    was made from a later phase; when all four phases were gone through
    without a failure, the status is "completed" and there is no error.
    (Without a failure, the four phases were not all gone through only
    when the client could not be constructed and no phase began.) *)
Theorem RunSMITest_phases (h : Adapter Clientset RestCfg)
    (opts : SMITestOptions Ctx) (w : World) :
  let '((response, err), (_, tr)) := run (RunSMITest h opts) w in
  in_order (phases_of tr) = true
  /\ match first_failure tr with
     | Some (p, cause) =>
       Status response = phase_name p
       /\ err = Some (phase_label p cause)
       /\ invoked_after p tr = false
     | None =>
       if forallb (fun p => invoked p tr) all_phases
       then Status response = "completed" /\ err = None
       else phases_of tr = [] /\ is_Some (init_failure tr)
     end.
Proof.
  unfold_run. repeat next_call; (split; [reflexivity|]); cbn; eauto.
Qed.

(** C1 (as amended).  When the cluster client cannot be constructed, the
    run returns the zero report and the initialisation error.  In every
    other run, failing or not, the report carries the run identifier, the
    timestamp read at its construction, the subject name and the subject
    version; its status names the last phase a call was made from when
    the run failed, and is "completed" when it did not. *)
Theorem RunSMITest_report_populated (h : Adapter Clientset RestCfg)
    (opts : SMITestOptions Ctx) (w : World) :
  let '((response, err), (_, tr)) := run (RunSMITest h opts) w in
  match init_failure tr with
  | Some cause =>
    response = Response_zero
    /\ err = Some (ErrSmiInit ("error creating meshery kubernetes client: "
                               ++ error_text cause))
  | None =>
    populated h opts (clock_reading tr) response
    /\ match err with
       | Some _ => names_last_phase (phases_of tr) (Status response)
       | None => Status response = "completed"
       end
  end.
Proof.
  unfold_run. repeat next_call; cbn;
    first [ by split
          | split; [by repeat split | by eexists] ].
Qed.



(** Every namespace handed to the cluster client is the one of the
    options, as it is. *)
Lemma RunSMITest_namespace_as_given (h : Adapter Clientset RestCfg)
    (opts : SMITestOptions Ctx) (w : World) :
  Forall (fun ns => ns = Namespace opts)
         (namespaces_used (run (RunSMITest h opts) w).2.2).
Proof.
  unfold_run. repeat next_call; cbn; repeat constructor.
Qed.

(** C9.  When the installing phase or the connecting phase fails, the
    report is the one constructed at the start but for its status: pass
    count "0", pass percentage "0", no details, and the run identifier,
    the timestamp read at construction, the subject name and the subject
    version. *)
Theorem RunSMITest_early_failure_frame (h : Adapter Clientset RestCfg)
    (opts : SMITestOptions Ctx) (w : World) (p : phase) (cause : error) :
  let result := run (RunSMITest h opts) w in
  first_failure result.2.2 = Some (p, cause) ->
  p = installing \/ p = connecting ->
  CasesPassed result.1.1 = "0"
  /\ PassingPercentage result.1.1 = "0"
  /\ MoreDetails result.1.1 = []
  /\ ID result.1.1 = OperationID opts
  /\ clock_reading result.2.2 = Some (Date result.1.1)
  /\ MeshName result.1.1 = GetName h
  /\ MeshVersion result.1.1 = GetVersion h.
Proof.
  unfold_run. repeat next_call; cbn;
    intros Hfail Hp; try discriminate;
    try (injection Hfail as <- _; destruct Hp; discriminate);
    by repeat split.
Qed.

(** C10.  When the remote test execution succeeded and closing the client
    session failed, the run returns the cause under the run-phase label
    with status "running", and the report has the results of the test:
    the tool's pass count and pass percentage and the detail of every raw
    record, in order. *)
Theorem RunSMITest_close_failure_keeps_results (h : Adapter Clientset RestCfg)
    (opts : SMITestOptions Ctx) (w : World)
    (answer : conformance.Response) (cause : error) :
  let result := run (RunSMITest h opts) w in
  test_result result.2.2 = Some answer ->
  close_failure result.2.2 = Some cause ->
  result.1.2 = Some (ErrRunSmi cause)
  /\ Status result.1.1 = "running"
  /\ CasesPassed result.1.1 = conformance.Casespassed answer
  /\ PassingPercentage result.1.1 = conformance.Passpercent answer
  /\ MoreDetails result.1.1 = map Detail_of (conformance.Details answer).
Proof.
  unfold_run. repeat next_call; cbn;
    intros Hanswer Hclose; try discriminate;
    injection Hanswer as <-; injection Hclose as <-;
    rewrite details_loop; by repeat split.
Qed.

End SMIFacts.

(** ** The code run in scripted worlds *)

(** The run in which the cluster client cannot be constructed returns the
    empty report: no run identifier, no subject name, and a status that
    names no phase. *)
Lemma RunSMITest_empty_report_on_init_failure :
  let opts := options_with_namespace "meshery" in
  let result := run (RunSMITest (ext := scripted new_fails) istio opts) 0 in
  result.1.1 = Response_zero
  /\ is_Some result.1.2
  /\ ID result.1.1 <> OperationID opts
  /\ MeshName result.1.1 <> GetName istio
  /\ MeshVersion result.1.1 <> GetVersion istio
  /\ (forall p, Status result.1.1 <> phase_name p)
  /\ (forall date, ~ populated istio opts date result.1.1).
Proof.
  cbv zeta. split; [reflexivity|]. split; [by eexists|].
  split; [discriminate|]. split; [discriminate|]. split; [discriminate|].
  split; [intros []; discriminate|].
  intros date (Hid & _). discriminate Hid.
Qed.


(** C4.  Called with an empty [Namespace], in a world where every call
    succeeds, [RunSMITest] hands the empty namespace to the cluster client
    in the install, connect and delete phases; "meshery" is handed to none
    of the calls. *)
Theorem RunSMITest_empty_namespace_not_defaulted :
  let result :=
    run (RunSMITest (ext := scripted all_well) istio (options_with_namespace "")) 0 in
  result.1.2 = None
  /\ namespaces_used result.2.2 = [""; ""; ""]
  /\ ~ In "meshery" (namespaces_used result.2.2).
Proof.
  cbv zeta. split; [reflexivity|]. split; [reflexivity|].
  vm_compute. intros [H|[H|[H|[]]]]; discriminate H.
Qed.

Lemma RunSMITest_early_failure_frame_witness :
  let opts := options_with_namespace "meshery" in
  let result := run (RunSMITest (ext := scripted fetch_fails) istio opts) 0 in
  first_failure result.2.2 = Some (installing, External "network unreachable")
  /\ CasesPassed result.1.1 = "0"
  /\ PassingPercentage result.1.1 = "0"
  /\ MoreDetails result.1.1 = []
  /\ ID result.1.1 = "op-42"
  /\ clock_reading result.2.2 = Some (Date result.1.1)
  /\ MeshName result.1.1 = "istio"
  /\ MeshVersion result.1.1 = "1.7.3".
Proof.
  cbv zeta. split; [reflexivity|].
  apply (RunSMITest_early_failure_frame (ext := scripted fetch_fails) istio
           (options_with_namespace "meshery") 0 installing
           (External "network unreachable")).
  - reflexivity.
  - left. reflexivity.
Defined.

Lemma RunSMITest_close_failure_keeps_results_witness :
  let result :=
    run (RunSMITest (ext := scripted close_fails) istio
           (options_with_namespace "meshery")) 0 in
  result.1.2 = Some (ErrRunSmi (External "connection reset"))
  /\ Status result.1.1 = "running"
  /\ CasesPassed result.1.1 = "8"
  /\ PassingPercentage result.1.1 = "100"
  /\ MoreDetails result.1.1 = map Detail_of raw_assertions.
Proof.
  cbv zeta.
  apply (RunSMITest_close_failure_keeps_results (ext := scripted close_fails)
           istio (options_with_namespace "meshery") 0 tool_answer
           (External "connection reset")).
  - reflexivity.
  - reflexivity.
Defined.

(** * Further properties of smi.go: what a run calls, and with what *)

Section SMICalls.

Context {World Ctx Clientset RestCfg KClient CClient : Type}.
Context {ext : Externals World Ctx Clientset RestCfg KClient CClient}.

(** X1.  The error and the status of the returned report agree: when the
    error is nil the status is "completed"; when there is an error the
    status is the name of a phase or, for the zero report, empty.
    "deploying", the status the report is constructed with, is never
    returned, and "completed" never comes with an error. *)
Theorem RunSMITest_status_and_error (h : Adapter Clientset RestCfg)
    (opts : SMITestOptions Ctx) (w : World) :
  let result := run (RunSMITest h opts) w in
  match result.1.2 with
  | None => Status result.1.1 = "completed"
  | Some _ => In (Status result.1.1) ("" :: map phase_name all_phases)
  end.
Proof.
  unfold_run. repeat next_call; cbn; tauto.
Qed.

(** X2.  The cluster client is constructed once, from the adapter's
    [KubeClient] and [RestConfig], and every manifest application and
    endpoint lookup of the run goes through that client. *)
Theorem RunSMITest_one_cluster_client (h : Adapter Clientset RestCfg)
    (opts : SMITestOptions Ctx) (w : World) :
  let tr := (run (RunSMITest h opts) w).2.2 in
  client_sources tr = [(KubeClient h, RestConfig h)]
  /\ Forall (fun k => client_built tr = Some k) (clients_used tr).
Proof.
  unfold_run. repeat next_call; cbn; (split; [reflexivity|]);
    repeat constructor.
Qed.

(** X3.  In the installing and in the deleting phase the manifest is fetched
    at most once, from the location of the options, and what is applied is
    the text of a fetch that succeeded, as bytes, in the namespace of the
    options, in delete mode in the deleting phase and only there; a fetch
    that succeeded is always followed by the application.  The connecting
    and running phases fetch and apply nothing. *)
Theorem RunSMITest_manifest_applied_as_fetched (h : Adapter Clientset RestCfg)
    (opts : SMITestOptions Ctx) (w : World) (p : phase) :
  let tr := (run (RunSMITest h opts) w).2.2 in
  length (fetched p tr) <= 1
  /\ Forall (fun f => f.1 = Manifest opts) (fetched p tr)
  /\ applied p tr
     = flat_map (fun f =>
                   match f.2 with
                   | Some text =>
                     [(list_byte_of_string text,
                       mesherykube.mkApplyOptions (Namespace opts)
                         (at_phase deleting (in_phase p)))]
                   | None => []
                   end)
                (fetched p tr)
  /\ fetched connecting tr = [] /\ fetched running tr = [].
Proof.
  unfold_run. repeat next_call; destruct p; cbn;
    (split; [lia|]); (split; [repeat constructor|]);
    by repeat split.
Qed.

(** X4.  The run waits exactly in the runs that go on to the connecting
    phase, once, for twenty seconds. *)
Theorem RunSMITest_settle_wait (h : Adapter Clientset RestCfg)
    (opts : SMITestOptions Ctx) (w : World) :
  let tr := (run (RunSMITest h opts) w).2.2 in
  sleeps tr = if invoked connecting tr then [20 * 1000000000]%Z else [].
Proof.
  unfold_run. repeat next_call; reflexivity.
Qed.

(** X5.  The endpoint is looked up at most once, under the service name
    "smi-conformance", in the namespace and with the context of the options,
    and a client session is only asked for at the address and port of the
    endpoint that lookup returned, written address:port. *)
Theorem RunSMITest_session_at_resolved_endpoint (h : Adapter Clientset RestCfg)
    (opts : SMITestOptions Ctx) (w : World) :
  let tr := (run (RunSMITest h opts) w).2.2 in
  (endpoint_lookups tr = []
   \/ endpoint_lookups tr = [(Ctx_ opts, "smi-conformance", Namespace opts)])
  /\ sessions_requested tr
     = match endpoint_resolved tr with
       | Some e =>
         [mesherykube.Address e ++ ":"
          ++ NilZero.string_of_int (Z.to_int (mesherykube.Port e))]
       | None => []
       end.
Proof.
  unfold_run. repeat next_call; cbn; split; auto.
Qed.

(** X6.  The test execution is asked for at most once, on the session that
    was opened, with a request that carries the annotations and labels of
    the options and the name and version of the adapter. *)
Theorem RunSMITest_request_carries_subject (h : Adapter Clientset RestCfg)
    (opts : SMITestOptions Ctx) (w : World) :
  let tr := (run (RunSMITest h opts) w).2.2 in
  tests_requested tr
  = map (fun c =>
           (c, conformance.mkRequest (Annotations opts) (Labels opts)
                 (GetName h) (GetVersion h)))
        (sessions_opened tr)
  /\ length (sessions_opened tr) <= 1.
Proof.
  unfold_run. repeat next_call; cbn; split; first [reflexivity | lia].
Qed.

(** X7.  [Close] is called on the session that was opened exactly when the
    test execution returned a result: when the test execution fails, the
    session that was opened is not closed. *)
Theorem RunSMITest_session_closed_iff_test_returned
    (h : Adapter Clientset RestCfg) (opts : SMITestOptions Ctx) (w : World) :
  let tr := (run (RunSMITest h opts) w).2.2 in
  sessions_closed tr
  = match test_result tr with
    | Some _ => sessions_opened tr
    | None => []
    end.
Proof.
  unfold_run. repeat next_call; reflexivity.
Qed.

(** X8.  In every run in which the cluster client was constructed, the
    results of the report are those of the test execution when it returned
    some, whatever happened afterwards, and otherwise the ones the report
    was constructed with: pass count "0", pass percentage "0", no
    details. *)
Theorem RunSMITest_results_are_the_tools (h : Adapter Clientset RestCfg)
    (opts : SMITestOptions Ctx) (w : World) :
  let result := run (RunSMITest h opts) w in
  let report := result.1.1 in
  match init_failure result.2.2, test_result result.2.2 with
  | Some _, _ => report = Response_zero
  | None, Some answer =>
    CasesPassed report = conformance.Casespassed answer
    /\ PassingPercentage report = conformance.Passpercent answer
    /\ MoreDetails report = map Detail_of (conformance.Details answer)
  | None, None =>
    CasesPassed report = "0"
    /\ PassingPercentage report = "0"
    /\ MoreDetails report = []
  end.
Proof.
  unfold_run. repeat next_call; cbn; try reflexivity;
    try rewrite details_loop; by repeat split.
Qed.

End SMICalls.

(** * Further properties of configure.go: the filter and the validation *)

Section FilterMore.

Variable os_Stat : string -> option error.

Local Abbreviation filter_in := (filterK8sConfigAuthInfos_in os_Stat).

Lemma usable_spelled_out (a : AuthInfo) :
  usable os_Stat a = true
  <-> ClientCertificateData a <> [] \/ os_Stat (ClientCertificate a) = None.
Proof.
  unfold usable. destruct (ClientCertificateData a) as [|b data]; cbn.
  - destruct (os_Stat (ClientCertificate a)); split; intros H; try done.
    + destruct H as [H|H]; [by destruct H | discriminate].
    + by right.
  - split; [intros _; by left | done].
Qed.

(** X9.  The result of the filter does not depend on the order in which the
    [range] visits the entries of the map: any two orders give the same map
    and the same error. *)
Theorem filter_order_independent (authInfos : gmap string AuthInfo)
    (order order' : list (string * AuthInfo)) :
  iteration_order order authInfos ->
  iteration_order order' authInfos ->
  filter_in order authInfos = filter_in order' authInfos.
Proof.
  intros Ho Ho'.
  rewrite (filter_in_kept _ _ _ Ho), (filter_in_kept _ _ _ Ho'). reflexivity.
Qed.

(** X10.  The filter keeps exactly the entries that have inline certificate
    data or a certificate path that can be accessed, each as it was: it
    deletes, it adds and alters nothing. *)
Theorem filter_keeps_exactly_usable (authInfos : gmap string AuthInfo)
    (order : list (string * AuthInfo)) (k : string) (a : AuthInfo) :
  iteration_order order authInfos ->
  (filter_in order authInfos).1 !! k = Some a
  <-> authInfos !! k = Some a
      /\ (ClientCertificateData a <> [] \/ os_Stat (ClientCertificate a) = None).
Proof.
  intros Ho. rewrite (filter_in_kept _ _ _ Ho). cbn [fst]. unfold kept.
  rewrite map_lookup_filter_Some. cbn [snd].
  rewrite usable_spelled_out. reflexivity.
Qed.


(** X12.  Access to more certificate paths never costs an entry: when every
    path accessible on one file system is accessible on another, what the
    filter leaves on the first is contained in what it leaves on the
    second, and where it succeeds on the first it succeeds on the second. *)
Theorem filter_monotone_in_access (os_Stat' : string -> option error)
    (authInfos : gmap string AuthInfo) (order order' : list (string * AuthInfo)) :
  (forall path, os_Stat path = None -> os_Stat' path = None) ->
  iteration_order order authInfos ->
  iteration_order order' authInfos ->
  (filter_in order authInfos).1
    ⊆ (filterK8sConfigAuthInfos_in os_Stat' order' authInfos).1
  /\ ((filter_in order authInfos).2 = None ->
      (filterK8sConfigAuthInfos_in os_Stat' order' authInfos).2 = None).
Proof.
  intros Hmore Ho Ho'.
  assert (Hsub : kept os_Stat authInfos ⊆ kept os_Stat' authInfos).
  { apply map_subseteq_spec. intros k a Hk.
    apply map_lookup_filter_Some in Hk as [Hk Hu]. cbn [snd] in Hu.
    apply map_lookup_filter_Some. split; [exact Hk|]. cbn [snd].
    revert Hu. unfold usable.
    destruct (negb _); cbn; [done|].
    destruct (os_Stat (ClientCertificate a)) eqn:Hs; [discriminate|].
    by rewrite (Hmore _ Hs). }
  rewrite (filter_in_kept _ _ _ Ho), (filter_in_kept _ _ _ Ho'). cbn [fst snd].
  split; [exact Hsub|].
  destruct (decide (kept os_Stat authInfos = ∅)) as [|Hne]; [discriminate|].
  intros _. rewrite decide_False; [reflexivity|].
  intros He. apply Hne. apply map_empty. intros k.
  destruct (kept os_Stat authInfos !! k) as [a|] eqn:Hk; [|reflexivity].
  pose proof (map_subseteq_spec (kept os_Stat authInfos) (kept os_Stat' authInfos))
    as [Hspec _].
  specialize (Hspec Hsub k a Hk). rewrite He in Hspec.
  by rewrite lookup_empty in Hspec.
Qed.

End FilterMore.

Section InstanceFacts.

Context {float32 Rest Clientset Dyn KClient Obj Handler Chan : Type}.
Context {cg : ClientGo float32 Rest Clientset Dyn KClient Obj Handler}.

Variable os_Stat : string -> option error.
Variable clientcmd_Load : list byte -> error + Config.
Variable clientcmdapi_FlattenConfig : Config -> Config * option error.
Variable clientcmdapi_MinifyConfig : Config -> Config * option error.

Local Abbreviation State :=
  (AdapterState float32 Rest Clientset Dyn KClient Handler Chan).
Local Abbreviation Load := clientcmd_Load.
Local Abbreviation Flatten := clientcmdapi_FlattenConfig.
Local Abbreviation Minify := clientcmdapi_MinifyConfig.

Lemma with_adapter_same (h : State) : with_adapter h (adapter h) = h.
Proof. by destruct h. Qed.

(** The ways [validateKubeconfig] ends, in terms of the entries kept. *)
Lemma validate_cases
    (h : Adapter Clientset (rest.Config float32 Rest)) (kubeconfig : list byte) :
  match validateKubeconfig os_Stat Load Flatten Minify h kubeconfig with
  | (h', Some err) => h' = h /\ exists cause, err = ErrValidateKubeconfig cause
  | (h', None) =>
    exists cfg flat minified,
      clientcmd_Load kubeconfig = inr cfg
      /\ kept os_Stat (AuthInfos cfg) <> ∅
      /\ clientcmdapi_FlattenConfig
           (Config_with_AuthInfos cfg (kept os_Stat (AuthInfos cfg)))
         = (flat, None)
      /\ clientcmdapi_MinifyConfig flat = (minified, None)
      /\ h' = Adapter_with_ClientcmdConfig h minified
  end.
Proof.
  unfold validateKubeconfig, filterK8sConfigAuthInfos.
  destruct (clientcmd_Load kubeconfig) as [err|cfg]; [by eauto|].
  rewrite (filter_in_kept _ _ _ (iteration_order_map_to_list _)).
  destruct (decide (kept os_Stat (AuthInfos cfg) = ∅)) as [|Hne]; [by eauto|].
  destruct (clientcmdapi_FlattenConfig _) as [flat [err|]] eqn:Hflat; [by eauto|].
  destruct (clientcmdapi_MinifyConfig flat) as [minified [err|]] eqn:Hmin;
    [by eauto|].
  exists cfg, flat, minified. by repeat split.
Qed.


(** The ways [createKubeClient] ends. *)
Lemma createKubeClient_cases (h : State) (kubeconfig : list byte) :
  match createKubeClient h kubeconfig with
  | (h', Some err) => h' = h /\ exists cause, err = ErrClientSet cause
  | (h', None) =>
    exists restConfig clientset dynamicClient,
      (if Nat.ltb 0 (length kubeconfig)
       then clientcmd_RESTConfigFromKubeConfig kubeconfig
       else rest_InClusterConfig) = inr restConfig
      /\ kubernetes_NewForConfig (tuned restConfig) = inr clientset
      /\ dynamic_NewForConfig (tuned restConfig) = inr dynamicClient
      /\ h' = with_clients h clientset dynamicClient (tuned restConfig)
  end.
Proof.
  unfold createKubeClient.
  destruct (Nat.ltb 0 (length kubeconfig));
    [destruct (clientcmd_RESTConfigFromKubeConfig kubeconfig) as [e|c]
    |destruct rest_InClusterConfig as [e|c]];
    try (by eauto);
    (destruct (kubernetes_NewForConfig (tuned c)) as [e|clientset] eqn:Hk;
       [by eauto|]);
    (destruct (dynamic_NewForConfig (tuned c)) as [e|dynamicClient] eqn:Hd;
       [by eauto|]);
    exists c, clientset, dynamicClient; by repeat split.
Qed.


(** X15.  When [createKubeClient] succeeds, the connection configuration
    came from the in-cluster configuration when the kubeconfig is empty
    and from the kubeconfig bytes otherwise; the adapter holds it with
    [QPS] set to 50 and [Burst] to 100 and its other fields as they came,
    and the two clients it holds are those built from the configuration so
    tuned.  Nothing else of the adapter has changed. *)
Theorem createKubeClient_success (h : State) (kubeconfig : list byte)
    (h' : State) :
  createKubeClient h kubeconfig = (h', None) ->
  exists restConfig,
    match kubeconfig with
    | [] => rest_InClusterConfig
    | _ :: _ => clientcmd_RESTConfigFromKubeConfig kubeconfig
    end = inr restConfig
    /\ RestConfig (adapter h')
       = rest.mkConfig (float32_of_int 50) 100 (rest.others restConfig)
    /\ kubernetes_NewForConfig (RestConfig (adapter h'))
       = inr (KubeClient (adapter h'))
    /\ dynamic_NewForConfig (RestConfig (adapter h'))
       = inr (DynamicKubeClient h')
    /\ ClientcmdConfig (adapter h') = ClientcmdConfig (adapter h)
    /\ GetName (adapter h') = GetName (adapter h)
    /\ GetVersion (adapter h') = GetVersion (adapter h)
    /\ MesheryKubeclient h' = MesheryKubeclient h
    /\ KubeconfigHandler h' = KubeconfigHandler h
    /\ Channel h' = Channel h.
Proof.
  intros Hcreate. pose proof (createKubeClient_cases h kubeconfig) as Hc.
  rewrite Hcreate in Hc.
  destruct Hc as (restConfig & clientset & dynamicClient & Hsource & Hk & Hd & ->).
  exists restConfig. split; [by destruct kubeconfig|].
  cbn. by repeat split.
Qed.

(** The three steps after the validation leave the document the adapter
    holds, its name and version, and the channel alone; the last two leave
    the adapter's clients alone as well, and only the last can change the
    meshery client. *)
Lemma later_steps_frame (h : State) (kubeconfig : list byte) :
  let keeps (h' : State) :=
    ClientcmdConfig (adapter h') = ClientcmdConfig (adapter h)
    /\ GetName (adapter h') = GetName (adapter h)
    /\ GetVersion (adapter h') = GetVersion (adapter h)
    /\ Channel h' = Channel h in
  (keeps (createKubeClient h kubeconfig).1
   /\ MesheryKubeclient (createKubeClient h kubeconfig).1 = MesheryKubeclient h)
  /\ (keeps (createKubeconfig h kubeconfig).1
      /\ adapter (createKubeconfig h kubeconfig).1 = adapter h
      /\ DynamicKubeClient (createKubeconfig h kubeconfig).1 = DynamicKubeClient h
      /\ MesheryKubeclient (createKubeconfig h kubeconfig).1 = MesheryKubeclient h)
  /\ (keeps (createMesheryKubeclient h kubeconfig).1
      /\ adapter (createMesheryKubeclient h kubeconfig).1 = adapter h
      /\ DynamicKubeClient (createMesheryKubeclient h kubeconfig).1
         = DynamicKubeClient h).
Proof.
  cbv zeta. split; [|split].
  - pose proof (createKubeClient_cases h kubeconfig) as Hc.
    destruct (createKubeClient h kubeconfig) as [h' [err|]].
    + destruct Hc as [-> _]. by repeat split.
    + destruct Hc as (c & clientset & dynamicClient & _ & _ & _ & ->).
      by repeat split.
  - unfold createKubeconfig.
    destruct (yaml_Unmarshal kubeconfig) as [err|kconfig]; [by repeat split|].
    repeat (match goal with
            | |- context [Handler_SetObject ?k ?o ?hd] =>
              destruct (Handler_SetObject k o hd) as [? [?|]]
            end; cbn [fst]; try by repeat split).
  - unfold createMesheryKubeclient.
    destruct (mesherykube_New_client _ _); by repeat split.
Qed.

(** The ways [CreateInstance] ends, step by step. *)
Lemma CreateInstance_cases (h : State) (kubeconfig : list byte)
    (contextName : string) (ch : Chan) :
  match validateKubeconfig os_Stat Load Flatten Minify (adapter h) kubeconfig with
  | (_, Some err) =>
    CreateInstance os_Stat Load Flatten Minify h kubeconfig contextName ch = Returns (h, Some (ErrCreateInstance err))
  | (a, None) =>
    exists minified, a = Adapter_with_ClientcmdConfig (adapter h) minified /\
    let h1 := with_adapter h a in
    match createKubeClient h1 kubeconfig with
    | (_, Some err) =>
      CreateInstance os_Stat Load Flatten Minify h kubeconfig contextName ch = Returns (h1, Some (ErrCreateInstance err))
    | (h2, None) =>
      match createKubeconfig h2 kubeconfig with
      | (h3, Some err) =>
        CreateInstance os_Stat Load Flatten Minify h kubeconfig contextName ch
        = Returns (h3, Some (ErrCreateInstance err))
      | (h3, None) =>
        match createMesheryKubeclient h3 kubeconfig with
        | (h4, Some err) =>
          CreateInstance os_Stat Load Flatten Minify h kubeconfig contextName ch
          = Returns (h4, Some (ErrCreateInstance err))
        | (h4, None) =>
          CreateInstance os_Stat Load Flatten Minify h kubeconfig contextName ch
          = Returns (with_context_and_Channel h4 minified contextName ch, None)
        end
      end
    end
  end.
Proof.
  unfold CreateInstance.
  pose proof (validate_cases (adapter h) kubeconfig) as Hv.
  destruct (validateKubeconfig os_Stat Load Flatten Minify (adapter h) kubeconfig) as [a [err|]].
  { destruct Hv as [-> _]. by rewrite with_adapter_same. }
  destruct Hv as (cfg & flat & minified & _ & _ & _ & _ & ->).
  exists minified. split; [reflexivity|]. cbv zeta.
  set (h1 := with_adapter h _).
  destruct (later_steps_frame h1 kubeconfig) as ((Hc1 & _) & _ & _).
  pose proof (createKubeClient_cases h1 kubeconfig) as Hk.
  destruct (createKubeClient h1 kubeconfig) as [h2 [err|]].
  { destruct Hk as [-> _]. reflexivity. }
  clear Hk. cbn [fst] in Hc1. destruct Hc1 as (Hc1 & _).
  destruct (later_steps_frame h2 kubeconfig) as (_ & ((Hc2 & _) & _) & _).
  destruct (createKubeconfig h2 kubeconfig) as [h3 [err|]]; [reflexivity|].
  cbn [fst] in Hc2.
  destruct (later_steps_frame h3 kubeconfig) as (_ & _ & ((Hc3 & _) & _)).
  destruct (createMesheryKubeclient h3 kubeconfig) as [h4 [err|]]; [reflexivity|].
  cbn [fst] in Hc3. rewrite Hc3, Hc2, Hc1. reflexivity.
Qed.


(** X17.  When [CreateInstance] succeeds, the adapter holds the document the
    validation left, with the context name given as its current context,
    whatever the document had selected; the channel given; a connection
    configuration with [QPS] 50 and [Burst] 100; the two clients built from
    that configuration; and the meshery client built from that client and
    that configuration.  Its name and version are as they were. *)
Theorem CreateInstance_success (h : State) (kubeconfig : list byte)
    (contextName : string) (ch : Chan) (h' : State) :
  CreateInstance os_Stat Load Flatten Minify h kubeconfig contextName ch = Returns (h', None) ->
  exists (minified : Config) (restConfig : rest.Config float32 Rest),
    validateKubeconfig os_Stat Load Flatten Minify (adapter h) kubeconfig
    = (Adapter_with_ClientcmdConfig (adapter h) minified, None)
    /\ ClientcmdConfig (adapter h')
       = Some {| AuthInfos := AuthInfos minified; CurrentContext := contextName |}
    /\ Channel h' = ch
    /\ RestConfig (adapter h')
       = rest.mkConfig (float32_of_int 50) 100 (rest.others restConfig)
    /\ kubernetes_NewForConfig (RestConfig (adapter h'))
       = inr (KubeClient (adapter h'))
    /\ dynamic_NewForConfig (RestConfig (adapter h'))
       = inr (DynamicKubeClient h')
    /\ mesherykube_New_client (KubeClient (adapter h')) (RestConfig (adapter h'))
       = inr (MesheryKubeclient h')
    /\ GetName (adapter h') = GetName (adapter h)
    /\ GetVersion (adapter h') = GetVersion (adapter h).
Proof.
  intros Hcreate.
  pose proof (CreateInstance_cases h kubeconfig contextName ch) as Hc.
  destruct (validateKubeconfig os_Stat Load Flatten Minify (adapter h) kubeconfig) as [a [err|]];
    [rewrite Hcreate in Hc; discriminate|].
  destruct Hc as (minified & -> & Hc). cbv zeta in Hc.
  set (h1 := with_adapter h _) in *.
  pose proof (createKubeClient_cases h1 kubeconfig) as Hk.
  destruct (createKubeClient h1 kubeconfig) as [h2 [err|]];
    [rewrite Hcreate in Hc; discriminate|].
  destruct Hk as (restConfig & clientset & dynamicClient & _ & Hk & Hd & ->).
  set (h2 := with_clients _ _ _ _) in *.
  destruct (later_steps_frame h2 kubeconfig) as (_ & (_ & A2 & D2 & _) & _).
  destruct (createKubeconfig h2 kubeconfig) as [h3 [err|]];
    [rewrite Hcreate in Hc; discriminate|].
  cbn [fst] in A2, D2.
  destruct (later_steps_frame h3 kubeconfig) as (_ & _ & (_ & A3 & D3)).
  unfold createMesheryKubeclient in *.
  destruct (mesherykube_New_client _ _) as [err|client] eqn:Hm;
    [rewrite Hcreate in Hc; discriminate|].
  cbn [fst] in A3, D3. rewrite Hcreate in Hc. injection Hc as ->.
  exists minified, restConfig. split; [reflexivity|].
  cbn. rewrite A2, D2 in *. cbn in *. by repeat split.
Qed.

(** X18.  A kubeconfig whose document has no auth-info with inline
    certificate data or an accessible certificate path, the document of an
    empty kubeconfig included: [CreateInstance] fails with the
    no-usable-credentials error under the validation and the
    instance-creation labels and leaves the adapter as it was, whatever the
    cluster and whatever the in-cluster configuration. *)
Theorem CreateInstance_no_usable_credentials (h : State)
    (kubeconfig : list byte) (contextName : string) (ch : Chan) (cfg : Config) :
  clientcmd_Load kubeconfig = inr cfg ->
  (forall k a, AuthInfos cfg !! k = Some a ->
     ClientCertificateData a = []
     /\ is_Some (os_Stat (ClientCertificate a))) ->
  CreateInstance os_Stat Load Flatten Minify h kubeconfig contextName ch
  = Returns (h, Some (ErrCreateInstance
                        (ErrValidateKubeconfig ErrAuthInfosInvalidMsg))).
Proof.
  intros Hload Hall.
  assert (Hkept : kept os_Stat (AuthInfos cfg) = ∅).
  { apply map_empty. intros k. apply map_lookup_filter_None.
    destruct (AuthInfos cfg !! k) as [a|] eqn:Hk; [right | by left].
    intros a' [= <-]. cbn [snd]. destruct (Hall k a Hk) as [Hdata [e He]].
    unfold usable. rewrite Hdata, He. cbn. discriminate. }
  pose proof (CreateInstance_cases h kubeconfig contextName ch) as Hc.
  revert Hc. unfold validateKubeconfig, filterK8sConfigAuthInfos.
  rewrite Hload, (filter_in_kept _ _ _ (iteration_order_map_to_list _)), Hkept.
  rewrite decide_True by reflexivity. intros Hc. exact Hc.
Qed.

(** X19.  [CreateInstance] is not all or nothing.  When it fails, the
    adapter is as it was if it is the validation that failed; if a later
    step failed, the adapter already holds the document the validation
    left, with the current context that document selected, not the context
    name given. *)
Theorem CreateInstance_failure_keeps_validated_document (h : State)
    (kubeconfig : list byte) (contextName : string) (ch : Chan)
    (h' : State) (err : error) :
  CreateInstance os_Stat Load Flatten Minify h kubeconfig contextName ch = Returns (h', Some err) ->
  match validateKubeconfig os_Stat Load Flatten Minify (adapter h) kubeconfig with
  | (_, Some _) => h' = h
  | (a, None) => ClientcmdConfig (adapter h') = ClientcmdConfig a
                 /\ is_Some (ClientcmdConfig a)
  end.
Proof.
  intros Hcreate.
  pose proof (CreateInstance_cases h kubeconfig contextName ch) as Hc.
  destruct (validateKubeconfig os_Stat Load Flatten Minify (adapter h) kubeconfig) as [a [e|]].
  { rewrite Hcreate in Hc. by injection Hc as ->. }
  destruct Hc as (minified & -> & Hc). cbv zeta in Hc.
  split; [|by eexists].
  set (h1 := with_adapter h _) in *.
  destruct (later_steps_frame h1 kubeconfig) as ((F1 & _) & _ & _).
  destruct (createKubeClient h1 kubeconfig) as [h2 [e|]].
  { rewrite Hcreate in Hc. by injection Hc as -> _. }
  cbn [fst] in F1. destruct F1 as (C1 & _).
  destruct (later_steps_frame h2 kubeconfig) as (_ & (F2 & _) & _).
  destruct (createKubeconfig h2 kubeconfig) as [h3 [e|]].
  { cbn [fst] in F2. destruct F2 as (C2 & _).
    rewrite Hcreate in Hc. injection Hc as -> _. by rewrite C2, C1. }
  cbn [fst] in F2. destruct F2 as (C2 & _).
  destruct (later_steps_frame h3 kubeconfig) as (_ & _ & (F3 & _)).
  destruct (createMesheryKubeclient h3 kubeconfig) as [h4 [e|]].
  { cbn [fst] in F3. destruct F3 as (C3 & _).
    rewrite Hcreate in Hc. injection Hc as -> _. by rewrite C3, C2, C1. }
  rewrite Hcreate in Hc. discriminate.
Qed.

End InstanceFacts.

(** * Properties of validate.go *)

Section ValidateSMIFacts.

Context {World Ctx Clientset RestCfg Test Result : Type}.
Context {tool : validate.Tool World Ctx Clientset Test Result}.


(** X21.  [ValidateSMIConformance] creates the conformance tool once, with
    the context and operation id of the options, the adapter's version,
    its name in lower case and its [KubeClient], before anything is
    streamed; it runs the test exactly when the tool was created, once, on
    the tool created, with the labels and annotations of the options. *)
Theorem ValidateSMIConformance_tool_calls (h : Adapter Clientset RestCfg)
    (opts : validate.SmiTestOptions Ctx) (w : World) :
  let name := validate.strings_ToLower (GetName h) in
  let calls := (validate.ValidateSMIConformance h opts (w, [])).2.2 in
  validate.tool_calls calls
  = validate.CallNew (validate.Ctx_ opts) (validate.OpID opts) (GetVersion h)
      name (KubeClient h)
    :: match (validate.smi_New (validate.Ctx_ opts) (validate.OpID opts)
                (GetVersion h) name (KubeClient h) w).1 with
       | inl _ => []
       | inr test =>
         [validate.CallRun test (validate.Labels opts) (validate.Annotations opts)]
       end
  /\ firstn (length (validate.tool_calls calls)) calls = validate.tool_calls calls.
Proof.
  unfold validate.ValidateSMIConformance, validate.perform. cbn [app].
  destruct (validate.smi_New _ _ _ _ _ w) as [[err|test] w1]; cbn.
  - by split.
  - destruct (validate.Run test _ _ w1) as [[result [err|]] w2]; cbn; by split.
Qed.

End ValidateSMIFacts.

(** ** The code of configure.go run on scripted clusters *)

Lemma filter_order_independent_witness :
  filterK8sConfigAuthInfos_in Stat_nothing
    (map_to_list (AuthInfos mixed_config)) (AuthInfos mixed_config)
  = filterK8sConfigAuthInfos_in Stat_nothing
      (reverse (map_to_list (AuthInfos mixed_config))) (AuthInfos mixed_config).
Proof.
  apply (filter_order_independent Stat_nothing (AuthInfos mixed_config)).
  - unfold iteration_order. reflexivity.
  - unfold iteration_order. apply reverse_Permutation.
Defined.

Lemma filter_keeps_exactly_usable_witness :
  (filterK8sConfigAuthInfos_in (Stat_only "/certs/dev.crt")
     (map_to_list (AuthInfos paths_only_config))
     (AuthInfos paths_only_config)).1 !! "dev"
  = Some (path_user "/certs/dev.crt")
  <-> AuthInfos paths_only_config !! "dev" = Some (path_user "/certs/dev.crt")
      /\ (ClientCertificateData (path_user "/certs/dev.crt") <> []
          \/ Stat_only "/certs/dev.crt"
               (ClientCertificate (path_user "/certs/dev.crt")) = None).
Proof.
  apply (filter_keeps_exactly_usable (Stat_only "/certs/dev.crt")
           (AuthInfos paths_only_config)
           (map_to_list (AuthInfos paths_only_config)) "dev"
           (path_user "/certs/dev.crt")).
  unfold iteration_order. reflexivity.
Defined.


Lemma filter_monotone_in_access_witness :
  let order := map_to_list (AuthInfos paths_only_config) in
  (filterK8sConfigAuthInfos_in (Stat_only "/certs/dev.crt") order
     (AuthInfos paths_only_config)).1
    ⊆ (filterK8sConfigAuthInfos_in Stat_everything order
         (AuthInfos paths_only_config)).1
  /\ ((filterK8sConfigAuthInfos_in (Stat_only "/certs/dev.crt") order
         (AuthInfos paths_only_config)).2 = None ->
      (filterK8sConfigAuthInfos_in Stat_everything order
         (AuthInfos paths_only_config)).2 = None).
Proof.
  cbv zeta.
  apply (filter_monotone_in_access (Stat_only "/certs/dev.crt") Stat_everything
           (AuthInfos paths_only_config)).
  - intros path _. reflexivity.
  - unfold iteration_order. reflexivity.
  - unfold iteration_order. reflexivity.
Defined.


Lemma createKubeClient_success_witness :
  exists restConfig : rest.Config Z unit,
    in_cluster_rest cluster_well = inr restConfig
    /\ RestConfig
         (adapter (createKubeClient (cg := scripted_cluster cluster_well)
                     fresh_adapter []).1)
       = rest.mkConfig 50%Z 100%Z (rest.others restConfig).
Proof.
  destruct (createKubeClient_success (cg := scripted_cluster cluster_well)
              fresh_adapter []
              (createKubeClient (cg := scripted_cluster cluster_well)
                 fresh_adapter []).1 eq_refl)
    as (restConfig & Hsource & Hrest & _).
  exists restConfig. split; [exact Hsource | exact Hrest].
Defined.

Lemma CreateInstance_success_witness :
  let h' :=
    with_context_and_Channel
      (with_MesheryKubeclient
         (with_KubeconfigHandler
            (with_clients
               (with_adapter fresh_adapter
                  (Adapter_with_ClientcmdConfig (adapter fresh_adapter)
                     (Config_with_AuthInfos mixed_config
                        {[ "admin" := inline_user ]})))
               tt tt (rest.mkConfig 50%Z 100%Z tt))
            ["kind"; "apiVersion"; "current-context"; "preferences";
             "clusters"; "users"; "contexts"])
         tt)
      (Config_with_AuthInfos mixed_config {[ "admin" := inline_user ]})
      "staging" (Some 7) in
  CreateInstance (cg := scripted_cluster cluster_well) Stat_nothing
    (Load_as mixed_config) Flatten_nothing Minify_needs_context
    fresh_adapter some_bytes "staging" (Some 7)
  = Returns (h', None)
  /\ ClientcmdConfig (adapter h')
     = Some {| AuthInfos := {[ "admin" := inline_user ]};
               CurrentContext := "staging" |}
  /\ Channel h' = Some 7.
Proof.
  cbv zeta.
  assert (Hrun :
    CreateInstance (cg := scripted_cluster cluster_well) Stat_nothing
      (Load_as mixed_config) Flatten_nothing Minify_needs_context
      fresh_adapter some_bytes "staging" (Some 7)
    = Returns
        (with_context_and_Channel
           (with_MesheryKubeclient
              (with_KubeconfigHandler
                 (with_clients
                    (with_adapter fresh_adapter
                       (Adapter_with_ClientcmdConfig (adapter fresh_adapter)
                          (Config_with_AuthInfos mixed_config
                             {[ "admin" := inline_user ]})))
                    tt tt (rest.mkConfig 50%Z 100%Z tt))
                 ["kind"; "apiVersion"; "current-context"; "preferences";
                  "clusters"; "users"; "contexts"])
              tt)
           (Config_with_AuthInfos mixed_config {[ "admin" := inline_user ]})
           "staging" (Some 7), None)) by (vm_compute; reflexivity).
  split; [exact Hrun|].
  destruct (CreateInstance_success (cg := scripted_cluster cluster_well)
              Stat_nothing (Load_as mixed_config) Flatten_nothing
              Minify_needs_context fresh_adapter some_bytes "staging" (Some 7)
              _ Hrun)
    as (minified & restConfig & _ & _ & Hchannel & _).
  split; [reflexivity | exact Hchannel].
Defined.

Lemma CreateInstance_no_usable_credentials_witness :
  CreateInstance (cg := scripted_cluster cluster_well) Stat_nothing
    (Load_as paths_only_config) Flatten_nothing Minify_needs_context
    fresh_adapter [] "staging" (Some 7)
  = Returns
      (fresh_adapter,
       Some (External
               "creating instance: validating kubeconfig: none of the auth infos are valid")).
Proof.
  apply (CreateInstance_no_usable_credentials
           (cg := scripted_cluster cluster_well) Stat_nothing
           (Load_as paths_only_config) Flatten_nothing Minify_needs_context
           fresh_adapter [] "staging" (Some 7) paths_only_config).
  - reflexivity.
  - intros k a Hk. cbn in Hk.
    apply lookup_insert_Some in Hk as [[_ <-]|[_ Hk]].
    + split; [reflexivity | by eexists].
    + apply lookup_singleton_Some in Hk as [_ <-].
      split; [reflexivity | by eexists].
Defined.

Lemma CreateInstance_failure_keeps_validated_document_witness :
  let result :=
    CreateInstance (cg := scripted_cluster cluster_without_clientset)
      Stat_nothing (Load_as mixed_config) Flatten_nothing Minify_needs_context
      fresh_adapter some_bytes "staging" (Some 7) in
  exists h',
    result = Returns (h', Some (External
                                  "creating instance: creating client set: no route to host"))
    /\ ClientcmdConfig (adapter h')
       = Some {| AuthInfos := {[ "admin" := inline_user ]};
                 CurrentContext := "admin" |}.
Proof.
  cbv zeta. eexists. split; [vm_compute; reflexivity|].
  pose proof (CreateInstance_failure_keeps_validated_document
                (cg := scripted_cluster cluster_without_clientset)
                Stat_nothing (Load_as mixed_config) Flatten_nothing
                Minify_needs_context fresh_adapter some_bytes "staging" (Some 7)
                _ _ eq_refl) as Hkeeps.
  vm_compute in Hkeeps. destruct Hkeeps as [Hdoc _].
  vm_compute. exact Hdoc.
Defined.
